(** * SurveyChain_FHE: the confidential aggregation engine

    A shallow embedding of the Solidity contract [SurveyChain_FHE] and the
    properties its specification states about it.

    - Storage mappings are finite maps read through their Solidity default
      (a key never written reads as the zero value of its type).
    - Each external function is a computation in a small state-and-revert
      monad; writes happen in the order of the source, and a revert keeps
      the storage as it was at the point of failure, so that "no write
      before a failed check" is a statement one can prove.  [transact]
      then gives the EVM view of a call: a reverted call rolls back.
    - The FHE library ([FHE.fromExternal], [FHE.add], ...) is imported by
      the contract; it is an interface here ([FHEAdapter]). *)

From Stdlib Require Import NArith ZArith Lia Bool String Ascii List.
From stdpp Require Import base option gmap strings list fin_maps.

Open Scope N_scope.

(** ** Value types *)

(** Unsigned integers are numbers in [N]; overflow checks and truncations
    are written out where the source has arithmetic.
    [address]: a 160-bit account; [euint32], [externalEuint32]: [bytes32]
    handles of ciphertexts; [bytes]: a dynamic byte array. *)
Definition address := N.
Definition bytes32 := N.
Definition euint32 := N.
Definition externalEuint32 := N.
Definition bytes := list Byte.byte.

Definition max_uint256 : N := 2 ^ 256 - 1.

(** The explicit conversion [uint32(x)] of a [uint256]: the low 32 bits. *)
Definition to_uint32 (x : N) : N := x mod 2 ^ 32.

(** ** Storage *)

Record Survey := mkSurvey {
  title : string;
  encryptedResponse : euint32;
  participantCount : N;
  questionCount : N;
  creator : address;
  createdAt : N;
  isActive : bool
}.

Record AggregationResult := mkAggregationResult {
  sum : N;
  count : N;
  isVerified : bool
}.

Inductive Event :=
| SurveyCreated (surveyId : string) (who : address)
| ResponseSubmitted (surveyId : string) (respondent : address)
| ResultsAggregated (surveyId : string) (s c : N)
| ResultsVerified (surveyId : string).

Record Storage := mkStorage {
  surveys : gmap string Survey;
  results : gmap string AggregationResult;
  hasResponded : gmap string (gmap address bool);
  surveyIds : list string;
  logs : list Event
}.

(** Zero values: what a mapping yields at a key that was never written. *)
Definition zero_Survey : Survey :=
  mkSurvey EmptyString 0 0 0 0 0 false.
Definition zero_AggregationResult : AggregationResult :=
  mkAggregationResult 0 0 false.

(** [surveys[id]], [results[id]] and [hasResponded[id][who]]. *)
Definition survey_at (st : Storage) (id : string) : Survey :=
  default zero_Survey (surveys st !! id).
Definition result_at (st : Storage) (id : string) : AggregationResult :=
  default zero_AggregationResult (results st !! id).
Definition responded_at (st : Storage) (id : string) (who : address) : bool :=
  default false (default ∅ (hasResponded st !! id) !! who).

(** The state of a freshly deployed contract. *)
Definition init_storage : Storage := mkStorage ∅ ∅ ∅ [] [].

(** The existence test every function of the contract uses:
    [bytes(surveys[id].title).length > 0]. *)
Definition survey_exists (st : Storage) (id : string) : bool :=
  (0 <? String.length (title (survey_at st id)))%nat.

(** Storage writes. *)
Definition set_survey (id : string) (s : Survey) (st : Storage) : Storage :=
  mkStorage (<[id := s]> (surveys st)) (results st) (hasResponded st)
            (surveyIds st) (logs st).
Definition set_result (id : string) (r : AggregationResult) (st : Storage) : Storage :=
  mkStorage (surveys st) (<[id := r]> (results st)) (hasResponded st)
            (surveyIds st) (logs st).
Definition set_responded (id : string) (who : address) (b : bool) (st : Storage) : Storage :=
  mkStorage (surveys st) (results st)
            (<[id := <[who := b]> (default ∅ (hasResponded st !! id))]> (hasResponded st))
            (surveyIds st) (logs st).
Definition push_surveyId (id : string) (st : Storage) : Storage :=
  mkStorage (surveys st) (results st) (hasResponded st)
            (surveyIds st ++ [id]) (logs st).
Definition add_log (e : Event) (st : Storage) : Storage :=
  mkStorage (surveys st) (results st) (hasResponded st)
            (surveyIds st) (logs st ++ [e]).

(** Field updates of a stored [Survey]. *)
Definition with_encryptedResponse (v : euint32) (s : Survey) : Survey :=
  mkSurvey (title s) v (participantCount s) (questionCount s)
           (creator s) (createdAt s) (isActive s).
Definition with_participantCount (n : N) (s : Survey) : Survey :=
  mkSurvey (title s) (encryptedResponse s) n (questionCount s)
           (creator s) (createdAt s) (isActive s).
Definition with_isActive (b : bool) (s : Survey) : Survey :=
  mkSurvey (title s) (encryptedResponse s) (participantCount s) (questionCount s)
           (creator s) (createdAt s) b.
Definition with_isVerified (b : bool) (r : AggregationResult) : AggregationResult :=
  mkAggregationResult (sum r) (count r) b.

(** ** Errors

    One constructor per way a call can revert.  The first nine are the
    error kinds of the specification; [revert_message] gives the reason
    string of the [require] that raises each one, where there is one. *)
Inductive Error :=
| AlreadyExists
| NotFound
| Inactive
| DuplicateResponse
| InvalidCiphertext
| NoResponses
| AlreadyVerified
| ProofInvalid
| MismatchedClaim
| DecodeFailure
| ArithmeticOverflow.

Definition revert_message (e : Error) : option string :=
  match e with
  | AlreadyExists => Some "Survey already exists"%string
  | NotFound => Some "Survey does not exist"%string
  | Inactive => Some "Survey is not active"%string
  | DuplicateResponse => Some "Already responded"%string
  | InvalidCiphertext => Some "Invalid encrypted input"%string
  | NoResponses => Some "No responses to aggregate"%string
  | AlreadyVerified => Some "Results already verified"%string
  | MismatchedClaim => Some "Decryption verification failed"%string
  | ProofInvalid => None        (* raised inside FHE.checkSignatures *)
  | DecodeFailure => None       (* raised by abi.decode *)
  | ArithmeticOverflow => None  (* Panic(0x11) of checked arithmetic *)
  end.

#[global] Instance Error_eq_dec : EqDecision Error.
Proof. solve_decision. Defined.

(** ** The state-and-revert monad *)

Inductive outcome (A : Type) : Type :=
| Done (a : A) (st : Storage)
| Reverted (e : Error) (st : Storage).
Arguments Done {A} a st.
Arguments Reverted {A} e st.

Definition M (A : Type) : Type := Storage -> outcome A.

Definition ret {A} (a : A) : M A := fun st => Done a st.
Definition bind {A B} (m : M A) (k : A -> M B) : M B :=
  fun st => match m st with
            | Done a st' => k a st'
            | Reverted e st' => Reverted e st'
            end.
Definition revert {A} (e : Error) : M A := fun st => Reverted e st.
Definition require (b : bool) (e : Error) : M unit :=
  if b then ret tt else revert e.
Definition sload {A} (f : Storage -> A) : M A := fun st => Done (f st) st.
Definition sstore (f : Storage -> Storage) : M unit := fun st => Done tt (f st).
Definition emit (e : Event) : M unit := sstore (add_log e).
Definition lift_option {A} (o : option A) (e : Error) : M A :=
  match o with Some a => ret a | None => revert e end.

Declare Scope evm_scope.
Delimit Scope evm_scope with evm.
Notation "'let*' x ':=' m 'in' k" := (bind m (fun x => k))
  (at level 10, x name, m at level 100, k at level 200) : evm_scope.
Notation "m ;; k" := (bind m (fun _ => k))
  (at level 100, k at level 200, right associativity) : evm_scope.

(** What a transaction leaves behind: the new storage when the body
    returns, the old storage when it reverts. *)
Definition transact {A} (body : M A) (st : Storage) : Storage * (Error + A) :=
  match body st with
  | Done a st' => (st', inr a)
  | Reverted e _ => (st, inl e)
  end.

(** ** Language primitives *)

(** [x++] on a [uint256] under checked arithmetic. *)
Definition checked_incr (x : N) : M N :=
  if x + 1 <=? max_uint256 then ret (x + 1) else revert ArithmeticOverflow.

(** The first 32-byte word of a byte array, big endian. *)
Definition be_word (bs : bytes) : N :=
  fold_left (fun acc b => acc * 256 + Byte.to_N b) (firstn 32 bs) 0.

(** [abi.decode(data, (uint32))]: reverts on fewer than 32 bytes and on a
    word that does not fit 32 bits. *)
Definition abi_decode_uint32 (data : bytes) : option N :=
  if (length data <? 32)%nat then None
  else if be_word data <? 2 ^ 32 then Some (be_word data) else None.

(** The call environment: [msg.sender] and [block.timestamp]. *)
Record Env := mkEnv { msg_sender : address; block_timestamp : N }.

(** ** The FHE library, as the contract uses it *)

Class FHEAdapter := {
  (** [FHE.fromExternal]: [None] when the library rejects the input proof. *)
  FHE_fromExternal : externalEuint32 -> bytes -> option euint32;
  FHE_isInitialized : euint32 -> bool;
  FHE_add : euint32 -> euint32 -> euint32;
  FHE_decrypt : euint32 -> N;
  FHE_toBytes32 : euint32 -> bytes32;
  (** [FHE.checkSignatures]: [false] when the library reverts. *)
  FHE_checkSignatures : list bytes32 -> bytes -> bytes -> bool
}.

Section Contract.
Context {fhe : FHEAdapter}.
Local Open Scope evm_scope.

(** [FHE.allowThis] and [FHE.makePubliclyDecryptable] write to the ACL
    contract of the library, not to this contract's storage. *)
Definition FHE_allowThis (v : euint32) : M unit := ret tt.
Definition FHE_makePubliclyDecryptable (v : euint32) : M unit := ret tt.

Definition createSurvey (env : Env) (surveyId title' : string) (questionCount' : N)
  : M unit :=
  let* s := sload (fun st => survey_at st surveyId) in
  require (String.length (title s) =? 0)%nat AlreadyExists ;;
  sstore (set_survey surveyId
            (mkSurvey title' 0 0 questionCount' (msg_sender env)
                      (block_timestamp env) true)) ;;
  sstore (push_surveyId surveyId) ;;
  emit (SurveyCreated surveyId (msg_sender env)).

Definition submitResponse (env : Env) (surveyId : string)
    (encryptedResponse' : externalEuint32) (inputProof : bytes) : M unit :=
  let* s := sload (fun st => survey_at st surveyId) in
  require (0 <? String.length (title s))%nat NotFound ;;
  require (isActive s) Inactive ;;
  let* r := sload (fun st => responded_at st surveyId (msg_sender env)) in
  require (negb r) DuplicateResponse ;;
  let* v0 := lift_option (FHE_fromExternal encryptedResponse' inputProof) InvalidCiphertext in
  require (FHE_isInitialized v0) InvalidCiphertext ;;
  let* encryptedValue := lift_option (FHE_fromExternal encryptedResponse' inputProof)
                      InvalidCiphertext in
  FHE_allowThis encryptedValue ;;
  FHE_makePubliclyDecryptable encryptedValue ;;
  let* s1 := sload (fun st => survey_at st surveyId) in
  (if participantCount s1 =? 0 then
     sstore (set_survey surveyId (with_encryptedResponse encryptedValue s1))
   else
     sstore (set_survey surveyId
               (with_encryptedResponse
                  (FHE_add (encryptedResponse s1) encryptedValue) s1))) ;;
  let* s2 := sload (fun st => survey_at st surveyId) in
  let* n := checked_incr (participantCount s2) in
  sstore (set_survey surveyId (with_participantCount n s2)) ;;
  sstore (set_responded surveyId (msg_sender env) true) ;;
  emit (ResponseSubmitted surveyId (msg_sender env)).

Definition aggregateResults (env : Env) (surveyId : string) : M unit :=
  let* s := sload (fun st => survey_at st surveyId) in
  require (0 <? String.length (title s))%nat NotFound ;;
  require (isActive s) Inactive ;;
  require (0 <? participantCount s) NoResponses ;;
  let* r := sload (fun st => result_at st surveyId) in
  require (negb (isVerified r)) AlreadyVerified ;;
  let* encryptedSum := sload (fun st => encryptedResponse (survey_at st surveyId)) in
  let* sum' := ret (FHE_decrypt encryptedSum) in
  let* s1 := sload (fun st => survey_at st surveyId) in
  sstore (set_result surveyId
            (mkAggregationResult sum' (to_uint32 (participantCount s1)) false)) ;;
  let* s2 := sload (fun st => survey_at st surveyId) in
  emit (ResultsAggregated surveyId sum' (to_uint32 (participantCount s2))).

Definition verifyResults (env : Env) (surveyId : string)
    (abiEncodedClearValue decryptionProof : bytes) : M unit :=
  let* s := sload (fun st => survey_at st surveyId) in
  require (0 <? String.length (title s))%nat NotFound ;;
  let* r := sload (fun st => result_at st surveyId) in
  require (negb (isVerified r)) AlreadyVerified ;;
  let* cts := sload (fun st => [FHE_toBytes32 (encryptedResponse (survey_at st surveyId))]) in
  require (FHE_checkSignatures cts abiEncodedClearValue decryptionProof) ProofInvalid ;;
  let* decodedValue := lift_option (abi_decode_uint32 abiEncodedClearValue) DecodeFailure in
  let* r1 := sload (fun st => result_at st surveyId) in
  require (decodedValue =? sum r1) MismatchedClaim ;;
  sstore (fun st => set_result surveyId (with_isVerified true (result_at st surveyId)) st) ;;
  sstore (fun st => set_survey surveyId (with_isActive false (survey_at st surveyId)) st) ;;
  emit (ResultsVerified surveyId).

(** The view functions. *)
Definition getSurvey (surveyId : string)
  : M (string * N * N * address * N * bool) :=
  let* s0 := sload (fun st => survey_at st surveyId) in
  require (0 <? String.length (title s0))%nat NotFound ;;
  let* s := sload (fun st => survey_at st surveyId) in
  ret (title s, participantCount s, questionCount s, creator s, createdAt s, isActive s).

Definition getResults (surveyId : string) : M (N * N * bool) :=
  let* s0 := sload (fun st => survey_at st surveyId) in
  require (0 <? String.length (title s0))%nat NotFound ;;
  let* r := sload (fun st => result_at st surveyId) in
  ret (sum r, count r, isVerified r).

Definition getAllSurveyIds : M (list string) :=
  sload surveyIds.

Definition hasUserResponded (surveyId : string) (user : address) : M bool :=
  sload (fun st => responded_at st surveyId user).

(** ** Calls and reachable states *)

Inductive Call :=
| CreateSurvey (surveyId title' : string) (questionCount' : N)
| SubmitResponse (surveyId : string) (encryptedResponse' : externalEuint32)
                 (inputProof : bytes)
| AggregateResults (surveyId : string)
| VerifyResults (surveyId : string) (abiEncodedClearValue decryptionProof : bytes).

Definition body (env : Env) (c : Call) : M unit :=
  match c with
  | CreateSurvey id t q => createSurvey env id t q
  | SubmitResponse id ext prf => submitResponse env id ext prf
  | AggregateResults id => aggregateResults env id
  | VerifyResults id clear prf => verifyResults env id clear prf
  end.

(** One successful transaction. *)
Definition step (st st' : Storage) : Prop :=
  exists env c, body env c st = Done tt st'.

(** Any number of successful transactions. *)
Inductive steps : Storage -> Storage -> Prop :=
| steps_refl st : steps st st
| steps_next st st' st'' : steps st st' -> step st' st'' -> steps st st''.

Definition reachable (st : Storage) : Prop := steps init_storage st.

(** Running a list of calls in order, reverted ones rolled back. *)
Fixpoint run (cs : list (Env * Call)) (st : Storage) : Storage :=
  match cs with
  | [] => st
  | (env, c) :: cs' => run cs' (fst (transact (body env c) st))
  end.

End Contract.

(** ** A transparent adapter

    An instance of the interface in which a handle is its own plaintext:
    an input is accepted when it comes with a non-empty proof, the handle
    0 is the uninitialised one, and a decryption proof is accepted when it
    is non-empty and the clear value decodes to the plaintext of the single
    handle it is checked against.  It serves to run scenarios. *)
Definition clear_fromExternal (h : externalEuint32) (prf : bytes) : option euint32 :=
  match prf with [] => None | _ :: _ => Some h end.

Definition clear_checkSignatures (cts : list bytes32) (clear prf : bytes) : bool :=
  match cts, prf, abi_decode_uint32 clear with
  | [c], _ :: _, Some v => v =? to_uint32 c
  | _, _, _ => false
  end.

Definition clear_FHE : FHEAdapter := {|
  FHE_fromExternal := clear_fromExternal;
  FHE_isInitialized := fun v => negb (v =? 0);
  FHE_add := fun a b => a + b;
  FHE_decrypt := to_uint32;
  FHE_toBytes32 := fun v => v;
  FHE_checkSignatures := clear_checkSignatures
|}.

(** The ABI encoding of a small number: 31 zero bytes and the number. *)
Definition abi_encode_byte (b : Byte.byte) : bytes :=
  repeat Byte.x00 31 ++ [b].

Definition clear_0 : bytes := abi_encode_byte Byte.x00.
Definition clear_7 : bytes := abi_encode_byte Byte.x07.
Definition clear_12 : bytes := abi_encode_byte Byte.x0c.

Definition some_proof : bytes := [Byte.x01].

Definition S1 : string := "S1".
Definition alice : Env := mkEnv 1001 10.
Definition bob : Env := mkEnv 1002 20.
Definition carol : Env := mkEnv 1003 30.

(** A survey without responses. *)
Definition st_created : Storage :=
  run (fhe := clear_FHE) [(alice, CreateSurvey S1 "Mood" 3)] init_storage.
(** ... with one response of 7. *)
Definition st_open : Storage :=
  run (fhe := clear_FHE) [(alice, SubmitResponse S1 7 some_proof)] st_created.
(** ... then aggregated: the claim is 7 of 1 participant. *)
Definition st_pending : Storage :=
  run (fhe := clear_FHE) [(alice, AggregateResults S1)] st_open.
(** ... then a response of 5 more: the accumulator holds 12. *)
Definition st_moved : Storage :=
  run (fhe := clear_FHE) [(bob, SubmitResponse S1 5 some_proof)] st_pending.
(** ... or, instead of that response, verified. *)
Definition st_closed : Storage :=
  run (fhe := clear_FHE) [(carol, VerifyResults S1 clear_7 some_proof)] st_pending.
(** The survey verified without any response or aggregation. *)
Definition st_closed_empty : Storage :=
  run (fhe := clear_FHE) [(carol, VerifyResults S1 clear_0 some_proof)] st_created.
(** A survey created with an empty title, and the same identifier
    created again. *)
Definition st_untitled : Storage :=
  run (fhe := clear_FHE) [(alice, CreateSurvey S1 EmptyString 1)] init_storage.
Definition st_retitled : Storage :=
  run (fhe := clear_FHE) [(bob, CreateSurvey S1 "Mood" 2)] st_untitled.
(** A survey with 2^32 participants. *)
Definition st_crowded : Storage :=
  mkStorage {[ S1 := mkSurvey "Mood" 4 (2 ^ 32) 3 1001 10 true ]} ∅ ∅ [S1] [].
(** A survey whose participant counter is at its maximum. *)
Definition st_full : Storage :=
  mkStorage {[ S1 := mkSurvey "Mood" 4 max_uint256 3 1001 10 true ]} ∅ ∅ [S1] [].

(** ** Post-states

    The storage each function leaves when it returns, written out. *)

(** After [createSurvey]. *)
Definition created (env : Env) (id t : string) (q : N) (st : Storage) : Storage :=
  add_log (SurveyCreated id (msg_sender env))
    (push_surveyId id
       (set_survey id
          (mkSurvey t 0 0 q (msg_sender env) (block_timestamp env) true) st)).

Section PostStates.
Context {fhe : FHEAdapter}.

(** The accumulator after a response with ciphertext [v] was added. *)
Definition accumulator_after (v : euint32) (s : Survey) : euint32 :=
  if participantCount s =? 0 then v else FHE_add (encryptedResponse s) v.

(** Inside [submitResponse], after the accumulator was written and
    before the participant count is incremented. *)
Definition accumulated (id : string) (v : euint32) (st : Storage) : Storage :=
  set_survey id (with_encryptedResponse (accumulator_after v (survey_at st id))
                                        (survey_at st id)) st.

(** After [submitResponse]. *)
Definition submitted (env : Env) (id : string) (v : euint32) (st : Storage) : Storage :=
  let s := survey_at st id in
  add_log (ResponseSubmitted id (msg_sender env))
    (set_responded id (msg_sender env) true
       (set_survey id
          (with_participantCount (participantCount s + 1)
             (with_encryptedResponse (accumulator_after v s) s)) st)).

(** After [aggregateResults]. *)
Definition aggregated (id : string) (st : Storage) : Storage :=
  let s := survey_at st id in
  let r := mkAggregationResult (FHE_decrypt (encryptedResponse s))
                               (to_uint32 (participantCount s)) false in
  add_log (ResultsAggregated id (sum r) (count r)) (set_result id r st).

(** After [verifyResults]. *)
Definition verified (id : string) (st : Storage) : Storage :=
  add_log (ResultsVerified id)
    (set_survey id (with_isActive false (survey_at st id))
       (set_result id (with_isVerified true (result_at st id)) st)).

End PostStates.

(** ** Transitions

    The successful calls as a relation between storages: one rule per
    function, its premises the checks the function passes. *)
Section Transitions.
Context {fhe : FHEAdapter}.

Inductive transition : Storage -> Storage -> Prop :=
| T_create env id t q st :
    survey_exists st id = false ->
    transition st (created env id t q st)
| T_submit env id ext prf v st :
    survey_exists st id = true ->
    isActive (survey_at st id) = true ->
    responded_at st id (msg_sender env) = false ->
    FHE_fromExternal ext prf = Some v ->
    FHE_isInitialized v = true ->
    participantCount (survey_at st id) + 1 <= max_uint256 ->
    transition st (submitted env id v st)
| T_aggregate id st :
    survey_exists st id = true ->
    isActive (survey_at st id) = true ->
    0 < participantCount (survey_at st id) ->
    isVerified (result_at st id) = false ->
    transition st (aggregated id st)
| T_verify id clear prf st :
    survey_exists st id = true ->
    isVerified (result_at st id) = false ->
    FHE_checkSignatures [FHE_toBytes32 (encryptedResponse (survey_at st id))]
                        clear prf = true ->
    abi_decode_uint32 clear = Some (sum (result_at st id)) ->
    transition st (verified id st).

End Transitions.

(** ** Reading the log and the participation map *)

(** The survey a call is about. *)
Definition target (c : Call) : string :=
  match c with
  | CreateSurvey id _ _ => id
  | SubmitResponse id _ _ => id
  | AggregateResults id => id
  | VerifyResults id _ _ => id
  end.

(** The identifiers of the [SurveyCreated] events, oldest first. *)
Fixpoint created_in (l : list Event) : list string :=
  match l with
  | [] => []
  | SurveyCreated id _ :: l' => id :: created_in l'
  | _ :: l' => created_in l'
  end.

(** The respondents of the [ResponseSubmitted] events of a survey. *)
Fixpoint respondents_in (id : string) (l : list Event) : list address :=
  match l with
  | [] => []
  | ResponseSubmitted id' who :: l' =>
      if decide (id' = id) then who :: respondents_in id l' else respondents_in id l'
  | _ :: l' => respondents_in id l'
  end.

(** How many [ResultsVerified] events a survey has. *)
Fixpoint verified_in (id : string) (l : list Event) : nat :=
  match l with
  | [] => 0%nat
  | ResultsVerified id' :: l' =>
      if decide (id' = id) then S (verified_in id l') else verified_in id l'
  | _ :: l' => verified_in id l'
  end.

(** [hasResponded[id]], the inner mapping. *)
Definition respondents (st : Storage) (id : string) : gmap address bool :=
  default ∅ (hasResponded st !! id).

(** ** The front end

    Two helpers of [App.tsx].  A JavaScript string is the list of its
    UTF-16 code units; [slice] and [substring] with these arguments are
    [firstn] and [skipn]. *)
Module Frontend.

Definition jsstring := list N.

(** [addToHistory]: the new line in front of the nine most recent ones.
    The line is the time of day, a colon and a space, and the action. *)
Definition addToHistory (time action : jsstring) (prev : list jsstring)
  : list jsstring :=
  (time ++ [58; 32] ++ action) :: firstn 9 prev.

(** How the creator's address is displayed:
    [creator.substring(0, 8)}...{creator.substring(36)]. *)
Definition shortCreator (creator : jsstring) : jsstring :=
  firstn 8 creator ++ [46; 46; 46] ++ skipn 36 creator.

End Frontend.

(** ** State predicates *)

(** A survey is closed when it exists, its result is verified and it is
    inactive. *)
Definition closed (st : Storage) (id : string) : Prop :=
  survey_exists st id = true /\
  isVerified (result_at st id) = true /\
  isActive (survey_at st id) = false.

(** An identifier that is not listed was never written to. *)
Definition untouched (st : Storage) (id : string) : Prop :=
  surveys st !! id = None /\ results st !! id = None /\ hasResponded st !! id = None.

(** ** Storage lemmas *)

Ltac unfold_storage :=
  unfold survey_exists, survey_at, result_at, responded_at,
    set_survey, set_result, set_responded, push_surveyId, add_log in *;
  cbn [surveys results hasResponded surveyIds logs] in *.

Ltac storage := unfold_storage; simplify_map_eq; try done.

Lemma survey_at_set_survey id id' s st :
  survey_at (set_survey id s st) id' = if decide (id = id') then s else survey_at st id'.
Proof. case_decide; storage. Qed.

Lemma result_at_set_result id id' r st :
  result_at (set_result id r st) id' = if decide (id = id') then r else result_at st id'.
Proof. case_decide; storage. Qed.

Lemma responded_at_set_responded id id' who who' b st :
  responded_at (set_responded id who b st) id' who' =
  if decide (id = id' /\ who = who') then b else responded_at st id' who'.
Proof.
  case_decide as H.
  - destruct H; storage.
  - destruct (decide (id = id')) as [->|]; [|storage].
    destruct (decide (who = who')) as [->|]; [tauto|storage].
Qed.

Lemma survey_exists_title st id :
  survey_exists st id = negb (String.length (title (survey_at st id)) =? 0)%nat.
Proof.
  unfold survey_exists. destruct (String.length _); reflexivity.
Qed.

Lemma survey_exists_init id : survey_exists init_storage id = false.
Proof. reflexivity. Qed.

(** ** What each function computes *)

Section Equations.
Context {fhe : FHEAdapter}.

Lemma createSurvey_eq env id t q st :
  createSurvey env id t q st =
  if survey_exists st id then Reverted AlreadyExists st
  else Done tt (created env id t q st).
Proof.
  rewrite survey_exists_title.
  unfold createSurvey, bind, sload, require, emit, sstore, ret, revert.
  destruct (_ =? 0)%nat; reflexivity.
Qed.

Lemma submitResponse_eq env id ext prf st :
  submitResponse env id ext prf st =
  if negb (survey_exists st id) then Reverted NotFound st
  else if negb (isActive (survey_at st id)) then Reverted Inactive st
  else if responded_at st id (msg_sender env) then Reverted DuplicateResponse st
  else match FHE_fromExternal ext prf with
       | None => Reverted InvalidCiphertext st
       | Some v =>
           if negb (FHE_isInitialized v) then Reverted InvalidCiphertext st
           else if participantCount (survey_at st id) + 1 <=? max_uint256
                then Done tt (submitted env id v st)
                else Reverted ArithmeticOverflow (accumulated id v st)
       end.
Proof.
  unfold submitResponse, survey_exists, bind, sload, require, emit, sstore, ret, revert.
  destruct (0 <? _)%nat; [|reflexivity]. cbn [negb].
  destruct (isActive _); [|reflexivity]. cbn [negb].
  destruct (responded_at _ _ _); [reflexivity|]. cbn [negb].
  unfold lift_option, FHE_allowThis, FHE_makePubliclyDecryptable, ret, revert.
  destruct (FHE_fromExternal ext prf) as [v|]; [|reflexivity].
  destruct (FHE_isInitialized v); [|reflexivity]. cbn [negb].
  assert (Hw : forall a, survey_at (set_survey id a st) id = a).
  { intros a. rewrite survey_at_set_survey. case_decide; done. }
  unfold submitted, accumulated, accumulator_after, checked_incr, ret, revert.
  destruct (participantCount (survey_at st id) =? 0); unfold sstore;
    rewrite Hw; cbn [participantCount with_encryptedResponse];
    (destruct (_ <=? max_uint256); [|reflexivity]);
    do 2 f_equal; unfold set_responded, set_survey, add_log;
    cbn [surveys results hasResponded surveyIds logs];
    rewrite insert_insert_eq; reflexivity.
Qed.

Lemma aggregateResults_eq env id st :
  aggregateResults env id st =
  if negb (survey_exists st id) then Reverted NotFound st
  else if negb (isActive (survey_at st id)) then Reverted Inactive st
  else if negb (0 <? participantCount (survey_at st id)) then Reverted NoResponses st
  else if isVerified (result_at st id) then Reverted AlreadyVerified st
  else Done tt (aggregated id st).
Proof.
  unfold aggregateResults, survey_exists, bind, sload, require, emit, sstore, ret, revert.
  destruct (0 <? String.length _)%nat; [|reflexivity]. cbn [negb].
  destruct (isActive _); [|reflexivity]. cbn [negb].
  destruct (0 <? participantCount _); [|reflexivity]. cbn [negb].
  destruct (isVerified _); reflexivity.
Qed.

Lemma verifyResults_eq env id clear prf st :
  verifyResults env id clear prf st =
  if negb (survey_exists st id) then Reverted NotFound st
  else if isVerified (result_at st id) then Reverted AlreadyVerified st
  else if negb (FHE_checkSignatures
                  [FHE_toBytes32 (encryptedResponse (survey_at st id))] clear prf)
       then Reverted ProofInvalid st
  else match abi_decode_uint32 clear with
       | None => Reverted DecodeFailure st
       | Some v => if v =? sum (result_at st id) then Done tt (verified id st)
                   else Reverted MismatchedClaim st
       end.
Proof.
  unfold verifyResults, survey_exists, bind, sload, require, emit, sstore, ret, revert.
  destruct (0 <? String.length _)%nat; [|reflexivity]. cbn [negb].
  destruct (isVerified _); [reflexivity|]. cbn [negb].
  destruct (FHE_checkSignatures _ _ _); [|reflexivity]. cbn [negb].
  unfold lift_option, ret, revert.
  destruct (abi_decode_uint32 clear) as [v|]; [|reflexivity].
  destruct (v =? _); reflexivity.
Qed.

Lemma getSurvey_eq id st :
  getSurvey id st =
  if survey_exists st id then
    let s := survey_at st id in
    Done (title s, participantCount s, questionCount s, creator s, createdAt s,
          isActive s) st
  else Reverted NotFound st.
Proof.
  unfold getSurvey, survey_exists, bind, sload, require, ret, revert.
  destruct (0 <? String.length _)%nat; reflexivity.
Qed.

Lemma getResults_eq id st :
  getResults id st =
  if survey_exists st id then
    let r := result_at st id in Done (sum r, count r, isVerified r) st
  else Reverted NotFound st.
Proof.
  unfold getResults, survey_exists, bind, sload, require, ret, revert.
  destruct (0 <? String.length _)%nat; reflexivity.
Qed.

End Equations.

(** ** Steps are transitions *)

Section Steps.
Context {fhe : FHEAdapter}.

Lemma step_transition st st' : step st st' <-> transition st st'.
Proof.
  split.
  - intros (env & c & H). destruct c as [id t q|id ext prf|id|id clear prf]; cbn [body] in H.
    + rewrite createSurvey_eq in H.
      destruct (survey_exists st id) eqn:E; inversion H; subst. by constructor.
    + rewrite submitResponse_eq in H.
      destruct (survey_exists st id) eqn:E1; cbn [negb] in H; [|discriminate].
      destruct (isActive (survey_at st id)) eqn:E2; cbn [negb] in H; [|discriminate].
      destruct (responded_at st id (msg_sender env)) eqn:E3; [discriminate|].
      destruct (FHE_fromExternal ext prf) as [v|] eqn:E4; [|discriminate].
      destruct (FHE_isInitialized v) eqn:E5; cbn [negb] in H; [|discriminate].
      destruct (N.leb_spec (participantCount (survey_at st id) + 1) max_uint256);
        inversion H; subst.
      by econstructor.
    + rewrite aggregateResults_eq in H.
      destruct (survey_exists st id) eqn:E1; cbn [negb] in H; [|discriminate].
      destruct (isActive (survey_at st id)) eqn:E2; cbn [negb] in H; [|discriminate].
      destruct (N.ltb_spec 0 (participantCount (survey_at st id)));
        cbn [negb] in H; [|discriminate].
      destruct (isVerified (result_at st id)) eqn:E4; inversion H; subst.
      by constructor.
    + rewrite verifyResults_eq in H.
      destruct (survey_exists st id) eqn:E1; cbn [negb] in H; [|discriminate].
      destruct (isVerified (result_at st id)) eqn:E2; [discriminate|].
      destruct (FHE_checkSignatures _ clear prf) eqn:E3; cbn [negb] in H; [|discriminate].
      destruct (abi_decode_uint32 clear) as [v|] eqn:E4; [|discriminate].
      destruct (N.eqb_spec v (sum (result_at st id))); inversion H; subst.
      by econstructor.
  - intros H. destruct H.
    + exists env, (CreateSurvey id t q). cbn [body].
      rewrite createSurvey_eq. by rewrite H.
    + exists env, (SubmitResponse id ext prf). cbn [body].
      rewrite submitResponse_eq, H, H0, H1, H2, H3. cbn [negb].
      by destruct (N.leb_spec (participantCount (survey_at st id) + 1) max_uint256); [|lia].
    + exists (mkEnv 0 0), (AggregateResults id). cbn [body].
      rewrite aggregateResults_eq, H, H0, H2. cbn [negb].
      by destruct (N.ltb_spec 0 (participantCount (survey_at st id))); [|lia].
    + exists (mkEnv 0 0), (VerifyResults id clear prf). cbn [body].
      rewrite verifyResults_eq, H, H0, H1, H2. cbn [negb].
      by rewrite N.eqb_refl.
Qed.

End Steps.

(** ** Reading a post-state *)

Section Reads.
Context {fhe : FHEAdapter}.

Lemma survey_at_created env id t q st id' :
  survey_at (created env id t q st) id' =
  if decide (id = id')
  then mkSurvey t 0 0 q (msg_sender env) (block_timestamp env) true
  else survey_at st id'.
Proof. unfold created. case_decide; storage. Qed.

Lemma result_at_created env id t q st id' :
  result_at (created env id t q st) id' = result_at st id'.
Proof. reflexivity. Qed.

Lemma responded_at_created env id t q st id' who :
  responded_at (created env id t q st) id' who = responded_at st id' who.
Proof. reflexivity. Qed.

Lemma surveyIds_created env id t q st :
  surveyIds (created env id t q st) = surveyIds st ++ [id].
Proof. reflexivity. Qed.

Lemma survey_at_submitted env id v st id' :
  survey_at (submitted env id v st) id' =
  if decide (id = id')
  then with_participantCount (participantCount (survey_at st id) + 1)
         (with_encryptedResponse (accumulator_after v (survey_at st id))
                                 (survey_at st id))
  else survey_at st id'.
Proof. unfold submitted. case_decide; storage. Qed.

Lemma result_at_submitted env id v st id' :
  result_at (submitted env id v st) id' = result_at st id'.
Proof. reflexivity. Qed.

Lemma responded_at_submitted env id v st id' who :
  responded_at (submitted env id v st) id' who =
  if decide (id = id' /\ msg_sender env = who) then true
  else responded_at st id' who.
Proof.
  unfold submitted.
  change (responded_at (add_log ?e ?s) id' who) with (responded_at s id' who).
  rewrite responded_at_set_responded. reflexivity.
Qed.

Lemma surveyIds_submitted env id v st :
  surveyIds (submitted env id v st) = surveyIds st.
Proof. reflexivity. Qed.

Lemma survey_at_aggregated id st id' :
  survey_at (aggregated id st) id' = survey_at st id'.
Proof. reflexivity. Qed.

Lemma result_at_aggregated id st id' :
  result_at (aggregated id st) id' =
  if decide (id = id')
  then mkAggregationResult (FHE_decrypt (encryptedResponse (survey_at st id)))
                           (to_uint32 (participantCount (survey_at st id))) false
  else result_at st id'.
Proof. unfold aggregated. case_decide; storage. Qed.

Lemma responded_at_aggregated id st id' who :
  responded_at (aggregated id st) id' who = responded_at st id' who.
Proof. reflexivity. Qed.

Lemma surveyIds_aggregated id st : surveyIds (aggregated id st) = surveyIds st.
Proof. reflexivity. Qed.

Lemma survey_at_verified id st id' :
  survey_at (verified id st) id' =
  if decide (id = id') then with_isActive false (survey_at st id)
  else survey_at st id'.
Proof. unfold verified. case_decide; storage. Qed.

Lemma result_at_verified id st id' :
  result_at (verified id st) id' =
  if decide (id = id') then with_isVerified true (result_at st id)
  else result_at st id'.
Proof. unfold verified. case_decide; storage. Qed.

Lemma responded_at_verified id st id' who :
  responded_at (verified id st) id' who = responded_at st id' who.
Proof. reflexivity. Qed.

Lemma surveyIds_verified id st : surveyIds (verified id st) = surveyIds st.
Proof. reflexivity. Qed.

(** The existence test reads the title only. *)
Lemma survey_exists_by_title st st' id id' :
  title (survey_at st' id') = title (survey_at st id) ->
  survey_exists st' id' = survey_exists st id.
Proof. unfold survey_exists. by intros ->. Qed.

End Reads.

(** ** Creation *)

Section Creation.

(** A successful [createSurvey] stores an active survey without
    participants and with the uninitialised handle as accumulator, and
    appends the identifier to [surveyIds]. *)
Lemma createSurvey_success env id t q st :
  survey_exists st id = false ->
  createSurvey env id t q st = Done tt (created env id t q st) /\
  survey_at (created env id t q st) id =
    mkSurvey t 0 0 q (msg_sender env) (block_timestamp env) true /\
  surveyIds (created env id t q st) = surveyIds st ++ [id].
Proof.
  intros H. rewrite createSurvey_eq, H, survey_at_created.
  case_decide; done.
Qed.

(** [createSurvey] fails, with "Survey already exists", exactly when the
    title stored under the identifier is not empty. *)
Lemma createSurvey_fails_iff env id t q st :
  createSurvey env id t q st = Reverted AlreadyExists st <->
  survey_exists st id = true.
Proof.
  rewrite createSurvey_eq. destruct (survey_exists st id); split; done.
Qed.

(** C1 (the code at the failing input). A survey created with an empty
    title is registered, its identifier is in [surveyIds], and yet a second
    [createSurvey] with the same identifier is accepted: it overwrites the
    stored survey and the identifier is listed twice. *)
Theorem createSurvey_empty_title_recreated :
  createSurvey alice S1 EmptyString 1 init_storage = Done tt st_untitled /\
  In S1 (surveyIds st_untitled) /\
  createSurvey bob S1 "Mood" 2 st_untitled = Done tt st_retitled /\
  surveyIds st_retitled = [S1; S1] /\
  creator (survey_at st_retitled S1) = msg_sender bob /\
  questionCount (survey_at st_retitled S1) = 2.
Proof.
  repeat apply conj; try (vm_compute; reflexivity).
  left. reflexivity.
Qed.

End Creation.

(** ** Verification *)

Section Verification.
Context {fhe : FHEAdapter}.

(** C2. On an existing survey whose result is not verified,
    [verifyResults] fails with ProofInvalid when the library rejects the
    decryption proof for the stored accumulator; with a proof that passes,
    it fails with MismatchedClaim when the decoded clear value differs from
    the stored sum; when it returns, the result is verified and the survey
    inactive; and it does return when the proof passes and the clear value
    decodes to the stored sum. *)
Theorem verifyResults_checks env id clear prf st :
  survey_exists st id = true ->
  isVerified (result_at st id) = false ->
  let proof_ok :=
    FHE_checkSignatures [FHE_toBytes32 (encryptedResponse (survey_at st id))]
                        clear prf in
  (proof_ok = false ->
   verifyResults env id clear prf st = Reverted ProofInvalid st) /\
  (forall v, proof_ok = true -> abi_decode_uint32 clear = Some v ->
             v <> sum (result_at st id) ->
   verifyResults env id clear prf st = Reverted MismatchedClaim st) /\
  (forall st', verifyResults env id clear prf st = Done tt st' ->
     isVerified (result_at st' id) = true /\
     isActive (survey_at st' id) = false /\
     sum (result_at st' id) = sum (result_at st id) /\
     count (result_at st' id) = count (result_at st id)) /\
  (proof_ok = true -> abi_decode_uint32 clear = Some (sum (result_at st id)) ->
   verifyResults env id clear prf st = Done tt (verified id st)).
Proof.
  intros Hex Hnv proof_ok. subst proof_ok.
  rewrite verifyResults_eq, Hex, Hnv. cbn [negb].
  repeat split.
  - by intros ->.
  - intros v -> -> Hne. cbn [negb].
    by destruct (N.eqb_spec v (sum (result_at st id))).
  - destruct (FHE_checkSignatures _ _ _); [|done]; cbn [negb] in H.
    destruct (abi_decode_uint32 clear) as [v|]; [|done].
    destruct (v =? _); [|done]. inversion H; subst.
    rewrite result_at_verified. by case_decide.
  - destruct (FHE_checkSignatures _ _ _); [|done]; cbn [negb] in H.
    destruct (abi_decode_uint32 clear) as [v|]; [|done].
    destruct (v =? _); [|done]. inversion H; subst.
    rewrite survey_at_verified. by case_decide.
  - destruct (FHE_checkSignatures _ _ _); [|done]; cbn [negb] in H.
    destruct (abi_decode_uint32 clear) as [v|]; [|done].
    destruct (v =? _); [|done]. inversion H; subst.
    rewrite result_at_verified. by case_decide.
  - destruct (FHE_checkSignatures _ _ _); [|done]; cbn [negb] in H.
    destruct (abi_decode_uint32 clear) as [v|]; [|done].
    destruct (v =? _); [|done]. inversion H; subst.
    rewrite result_at_verified. by case_decide.
  - intros -> ->. cbn [negb]. by rewrite N.eqb_refl.
Qed.

End Verification.

(** The three outcomes on the pending survey: an empty proof, a claim of 12
    against a recorded sum of 7, and the matching claim. *)
Lemma verifyResults_checks_witness :
  (survey_exists st_pending S1 = true /\
   isVerified (result_at st_pending S1) = false) /\
  verifyResults (fhe := clear_FHE) carol S1 clear_7 [] st_pending
    = Reverted ProofInvalid st_pending /\
  verifyResults (fhe := clear_FHE) carol S1 clear_12 some_proof st_moved
    = Reverted MismatchedClaim st_moved /\
  verifyResults (fhe := clear_FHE) carol S1 clear_7 some_proof st_pending
    = Done tt (verified S1 st_pending) /\
  isActive (survey_at (verified S1 st_pending) S1) = false.
Proof.
  assert (E1 : survey_exists st_pending S1 = true) by (vm_compute; reflexivity).
  assert (E2 : isVerified (result_at st_pending S1) = false) by (vm_compute; reflexivity).
  assert (E3 : survey_exists st_moved S1 = true) by (vm_compute; reflexivity).
  assert (E4 : isVerified (result_at st_moved S1) = false) by (vm_compute; reflexivity).
  split; [split; assumption|].
  split.
  { apply (verifyResults_checks (fhe := clear_FHE) carol S1 clear_7 [] st_pending E1 E2).
    vm_compute; reflexivity. }
  split.
  { apply (proj1 (proj2 (verifyResults_checks (fhe := clear_FHE) carol S1 clear_12
                           some_proof st_moved E3 E4)) 12);
      vm_compute; congruence. }
  pose proof (proj2 (proj2 (proj2 (verifyResults_checks (fhe := clear_FHE) carol S1 clear_7
                 some_proof st_pending E1 E2)))) as Hok.
  assert (Hrun : verifyResults (fhe := clear_FHE) carol S1 clear_7 some_proof st_pending
                 = Done tt (verified S1 st_pending))
    by (apply Hok; vm_compute; reflexivity).
  split; [exact Hrun|].
  apply (proj1 (proj2 (proj2 (verifyResults_checks (fhe := clear_FHE) carol S1 clear_7
                 some_proof st_pending E1 E2))) _ Hrun).
Defined.

(** ** Aggregation *)

Section Aggregation.
Context {fhe : FHEAdapter}.

(** C3 (as amended). [aggregateResults] fails with NotFound on an unknown
    survey, with Inactive on an inactive one, with NoResponses exactly when
    the participant count is 0, with AlreadyVerified when the stored result
    is verified; otherwise it returns and stores, over whatever result was
    there, the decrypted sum, the participant count of that moment cut to
    32 bits, and [isVerified = false].  The stored count is the participant
    count itself as long as that is below 2^32. *)
Theorem aggregateResults_outcomes env id st :
  let s := survey_at st id in
  (survey_exists st id = false ->
   aggregateResults env id st = Reverted NotFound st) /\
  (survey_exists st id = true -> isActive s = false ->
   aggregateResults env id st = Reverted Inactive st) /\
  (survey_exists st id = true -> isActive s = true ->
   (aggregateResults env id st = Reverted NoResponses st <-> participantCount s = 0)) /\
  (survey_exists st id = true -> isActive s = true -> participantCount s <> 0 ->
   isVerified (result_at st id) = true ->
   aggregateResults env id st = Reverted AlreadyVerified st) /\
  (survey_exists st id = true -> isActive s = true -> participantCount s <> 0 ->
   isVerified (result_at st id) = false ->
   aggregateResults env id st = Done tt (aggregated id st) /\
   survey_at (aggregated id st) id = s /\
   result_at (aggregated id st) id =
     mkAggregationResult (FHE_decrypt (encryptedResponse s))
                         (participantCount s mod 2 ^ 32) false /\
   (participantCount s < 2 ^ 32 ->
    count (result_at (aggregated id st) id) = participantCount s)).
Proof.
  intros s. subst s. rewrite aggregateResults_eq.
  repeat apply conj.
  - by intros ->.
  - by intros -> ->.
  - intros -> ->. cbn [negb].
    destruct (N.ltb_spec 0 (participantCount (survey_at st id))); cbn [negb].
    + split; [|lia]. by destruct (isVerified _).
    + split; [lia|done].
  - intros -> -> Hpc ->. cbn [negb].
    by destruct (N.ltb_spec 0 (participantCount (survey_at st id))); [|lia].
  - intros -> -> Hpc ->. cbn [negb].
    destruct (N.ltb_spec 0 (participantCount (survey_at st id))); [|lia].
    cbn [negb]. rewrite result_at_aggregated. case_decide; [|done].
    repeat split. intros Hlt. cbn [count]. unfold to_uint32.
    by apply N.mod_small.
Qed.

End Aggregation.

(** Aggregating the survey with one response of 7. *)
Lemma aggregateResults_outcomes_witness :
  (survey_exists st_open S1 = true /\
   isActive (survey_at st_open S1) = true /\
   participantCount (survey_at st_open S1) <> 0 /\
   isVerified (result_at st_open S1) = false) /\
  aggregateResults (fhe := clear_FHE) alice S1 st_open = Done tt (aggregated (fhe := clear_FHE) S1 st_open) /\
  result_at (aggregated (fhe := clear_FHE) S1 st_open) S1 = mkAggregationResult 7 1 false.
Proof.
  assert (E1 : survey_exists st_open S1 = true) by (vm_compute; reflexivity).
  assert (E2 : isActive (survey_at st_open S1) = true) by (vm_compute; reflexivity).
  assert (E3 : participantCount (survey_at st_open S1) <> 0) by (vm_compute; congruence).
  assert (E4 : isVerified (result_at st_open S1) = false) by (vm_compute; reflexivity).
  split; [tauto|].
  destruct (proj2 (proj2 (proj2 (proj2
              (aggregateResults_outcomes (fhe := clear_FHE) alice S1 st_open))))
              E1 E2 E3 E4) as (Hrun & _ & Hres & _).
  split; [exact Hrun|]. rewrite Hres. vm_compute. reflexivity.
Defined.

(** ** What transitions preserve *)

Section Preservation.
Context {fhe : FHEAdapter}.

Lemma steps_transitive st1 st2 st3 : steps st1 st2 -> steps st2 st3 -> steps st1 st3.
Proof.
  intros H12 H23. induction H23 as [|st2 st3 st4 _ IH Hs]; [done|].
  eapply steps_next; [by apply IH|done].
Qed.

Lemma steps_one st st' : transition st st' -> steps st st'.
Proof.
  intros H. eapply steps_next; [apply steps_refl|]. by apply step_transition.
Qed.

(** A rule for properties that every transition preserves. *)
Lemma steps_preserve (P : Storage -> Prop) :
  (forall st st', transition st st' -> P st -> P st') ->
  forall st st', steps st st' -> P st -> P st'.
Proof.
  intros Hstep st st' H. induction H as [|st st' st'' _ IH Hs]; [done|].
  intros HP. apply step_transition in Hs. eauto.
Qed.

(** A survey that exists keeps existing: no function clears a title. *)
Lemma transition_exists st st' id :
  transition st st' -> survey_exists st id = true -> survey_exists st' id = true.
Proof.
  intros H Hex.
  destruct H as [env id0 t q st H0|env id0 ext prf v st|id0 st|id0 clear prf st];
    rewrite <- Hex; apply survey_exists_by_title.
  - rewrite survey_at_created. case_decide; [congruence|done].
  - rewrite survey_at_submitted. case_decide; by subst.
  - by rewrite survey_at_aggregated.
  - rewrite survey_at_verified. case_decide; by subst.
Qed.

(** [hasResponded] only grows. *)
Lemma transition_responded st st' id who :
  transition st st' -> responded_at st id who = true -> responded_at st' id who = true.
Proof.
  intros H Hr.
  destruct H as [env id0 t q st H0|env id0 ext prf v st|id0 st|id0 clear prf st].
  - by rewrite responded_at_created.
  - rewrite responded_at_submitted. by case_decide.
  - by rewrite responded_at_aggregated.
  - by rewrite responded_at_verified.
Qed.

(** No transition touches a closed survey. *)
Lemma transition_closed st st' id :
  transition st st' -> closed st id ->
  closed st' id /\ survey_at st' id = survey_at st id /\
  result_at st' id = result_at st id.
Proof.
  intros H (Hex & Hv & Hia). unfold closed.
  destruct H as [env id0 t q st H0|env id0 ext prf v st|id0 st|id0 clear prf st].
  - assert (id0 <> id) by congruence.
    rewrite (survey_exists_by_title st _ id id), survey_at_created, result_at_created;
      rewrite ?survey_at_created; case_decide; done.
  - assert (id0 <> id) by congruence.
    rewrite (survey_exists_by_title st _ id id), survey_at_submitted, result_at_submitted;
      rewrite ?survey_at_submitted; case_decide; done.
  - assert (id0 <> id) by congruence.
    rewrite (survey_exists_by_title st _ id id), survey_at_aggregated, result_at_aggregated;
      rewrite ?survey_at_aggregated; try case_decide; done.
  - assert (id0 <> id) by congruence.
    rewrite (survey_exists_by_title st _ id id), survey_at_verified, result_at_verified;
      rewrite ?survey_at_verified; repeat case_decide; done.
Qed.

(** In a reachable state a verified result belongs to a closed survey. *)
Lemma transition_verified_closed st st' :
  transition st st' ->
  (forall id, isVerified (result_at st id) = true -> closed st id) ->
  (forall id, isVerified (result_at st' id) = true -> closed st' id).
Proof.
  intros H Inv id Hv.
  assert (Hkeep : isVerified (result_at st id) = true -> closed st' id).
  { intros Hv0. by apply (transition_closed st st' id H), Inv. }
  destruct H as [env id0 t q st H0|env id0 ext prf v st|id0 st|id0 clear prf st].
  - apply Hkeep. by rewrite result_at_created in Hv.
  - apply Hkeep. by rewrite result_at_submitted in Hv.
  - apply Hkeep. rewrite result_at_aggregated in Hv. by case_decide.
  - rewrite result_at_verified in Hv. case_decide as Hid; [|by apply Hkeep].
    subst id0. unfold closed.
    rewrite (survey_exists_by_title st _ id id), survey_at_verified, result_at_verified;
      rewrite ?survey_at_verified; repeat case_decide; done.
Qed.

Lemma reachable_verified_closed st id :
  reachable st -> isVerified (result_at st id) = true -> closed st id.
Proof.
  intros Hr. revert id.
  refine (steps_preserve (fun st => forall id, isVerified (result_at st id) = true ->
                                               closed st id) _ _ _ Hr _).
  - intros s s' Ht Inv. by apply transition_verified_closed with s.
  - intros id. discriminate.
Qed.

(** An identifier that is not listed reads as the zero values. *)
Lemma untouched_reads st id who :
  untouched st id ->
  survey_exists st id = false /\ responded_at st id who = false.
Proof. intros (H1 & H2 & H3). unfold survey_exists, survey_at, responded_at. by rewrite H1, H3. Qed.

Lemma transition_unlisted st st' :
  transition st st' ->
  (forall id, ~ In id (surveyIds st) -> untouched st id) ->
  (forall id, ~ In id (surveyIds st') -> untouched st' id).
Proof.
  intros H Inv id Hni.
  assert (Hex : forall id0, survey_exists st id0 = true -> id0 <> id ->
                            ~ In id (surveyIds st) -> untouched st id) by eauto.
  assert (Hneq : forall id0, survey_exists st id0 = true ->
                             ~ In id (surveyIds st) -> id0 <> id).
  { intros id0 E Hn ->. destruct (untouched_reads st id 0 (Inv id Hn)). congruence. }
  destruct H as [env id0 t q st H0|env id0 ext prf v st|id0 st|id0 clear prf st].
  - rewrite surveyIds_created, in_app_iff in Hni. cbn [In] in Hni.
    assert (id0 <> id) by tauto.
    destruct (Inv id) as (H1 & H2 & H3); [tauto|].
    unfold untouched, created, add_log, push_surveyId, set_survey.
    cbn [surveys results hasResponded]. by rewrite lookup_insert_ne.
  - rewrite surveyIds_submitted in Hni. specialize (Hneq id0 H Hni).
    destruct (Inv id Hni) as (H5 & H6 & H7).
    unfold untouched, submitted, add_log, set_responded, set_survey.
    cbn [surveys results hasResponded]. by rewrite !lookup_insert_ne.
  - rewrite surveyIds_aggregated in Hni. specialize (Hneq id0 H Hni).
    destruct (Inv id Hni) as (H5 & H6 & H7).
    unfold untouched, aggregated, add_log, set_result.
    cbn [surveys results hasResponded]. by rewrite !lookup_insert_ne.
  - rewrite surveyIds_verified in Hni. specialize (Hneq id0 H Hni).
    destruct (Inv id Hni) as (H5 & H6 & H7).
    unfold untouched, verified, add_log, set_result, set_survey.
    cbn [surveys results hasResponded]. by rewrite !lookup_insert_ne.
Qed.

Lemma reachable_unlisted st id :
  reachable st -> ~ In id (surveyIds st) -> untouched st id.
Proof.
  intros Hr. revert id.
  refine (steps_preserve (fun st => forall id, ~ In id (surveyIds st) -> untouched st id)
            _ _ _ Hr _).
  - intros s s' Ht Inv. by apply transition_unlisted with s.
  - intros id _. by unfold untouched.
Qed.

(** Only surveys that exist have respondents. *)
Lemma transition_respondents st st' :
  transition st st' ->
  (forall id who, responded_at st id who = true -> survey_exists st id = true) ->
  (forall id who, responded_at st' id who = true -> survey_exists st' id = true).
Proof.
  intros H Inv id who Hr.
  assert (Hkeep : survey_exists st id = true -> survey_exists st' id = true)
    by apply (transition_exists st st' id H).
  destruct H as [env id0 t q st H0|env id0 ext prf v st Hex|id0 st|id0 clear prf st].
  - rewrite responded_at_created in Hr. eauto.
  - rewrite responded_at_submitted in Hr.
    case_decide as Hd; [|eauto]. destruct Hd as [<- _]. auto.
  - rewrite responded_at_aggregated in Hr. eauto.
  - rewrite responded_at_verified in Hr. eauto.
Qed.

Lemma reachable_respondents st id who :
  reachable st -> survey_exists st id = false -> responded_at st id who = false.
Proof.
  intros Hr Hex.
  assert (Inv : forall id who, responded_at st id who = true ->
                               survey_exists st id = true).
  { refine (steps_preserve
              (fun s => forall id who, responded_at s id who = true ->
                                       survey_exists s id = true) _ _ _ Hr _).
    - intros s s' Ht. apply (transition_respondents s s' Ht).
    - intros id1 who1 E. unfold responded_at, init_storage in E.
      cbn [hasResponded] in E. by rewrite !lookup_empty in E. }
  destruct (responded_at st id who) eqn:E; [|done].
  apply Inv in E. congruence.
Qed.

End Preservation.

(** ** Many responses *)

(** With the transparent adapter, a survey with [n] responses is
    reachable for every [n]: accounts 1, 2, ..., n respond in turn. *)
Lemma responses_reachable (n : nat) :
  N.of_nat n < max_uint256 ->
  exists st,
    reachable (fhe := clear_FHE) st /\
    survey_exists st S1 = true /\
    isActive (survey_at st S1) = true /\
    participantCount (survey_at st S1) = N.of_nat n /\
    isVerified (result_at st S1) = false /\
    forall a, N.of_nat n < a -> responded_at st S1 a = false.
Proof.
  induction n as [|n IH]; intros Hn.
  - exists st_created. repeat split.
    apply steps_one. by constructor.
  - destruct IH as (st & Hr & Hex & Hact & Hpc & Hnv & Hresp); [lia|].
    set (env := mkEnv (N.of_nat n + 1) 0).
    assert (Ht : transition (fhe := clear_FHE) st (submitted (fhe := clear_FHE) env S1 1 st)).
    { apply T_submit with (ext := 1) (prf := some_proof); try done.
      - apply Hresp. cbn [msg_sender env]. lia.
      - lia. }
    exists (submitted (fhe := clear_FHE) env S1 1 st). repeat apply conj.
    + eapply steps_transitive; [exact Hr|by apply steps_one].
    + by apply (transition_exists st _ S1 Ht).
    + rewrite survey_at_submitted. by case_decide.
    + rewrite survey_at_submitted. case_decide; [|done].
      cbn [participantCount with_participantCount]. lia.
    + by rewrite result_at_submitted.
    + intros a Ha. rewrite responded_at_submitted.
      case_decide as Hd; [|apply Hresp; lia].
      destruct Hd as [_ Hd]. cbn [msg_sender env] in Hd. lia.
Qed.

(** The truncation on a storage written out: 2^32 participants are
    recorded as a count of 0. *)
Example aggregateResults_count_wraps :
  aggregateResults (fhe := clear_FHE) alice S1 st_crowded
    = Done tt (aggregated (fhe := clear_FHE) S1 st_crowded) /\
  participantCount (survey_at st_crowded S1) = 4294967296 /\
  result_at (aggregated (fhe := clear_FHE) S1 st_crowded) S1
    = mkAggregationResult 4 0 false.
Proof. repeat split; vm_compute; reflexivity. Qed.

(** C3 (counterexample). The stored count is not always the participant
    count: a survey with 2^32 responses is reachable, and aggregating it
    stores the count 0. *)
Lemma aggregateResults_count_counterexample :
  ~ (forall st env id st',
       reachable (fhe := clear_FHE) st ->
       aggregateResults (fhe := clear_FHE) env id st = Done tt st' ->
       count (result_at st' id) = participantCount (survey_at st id)).
Proof.
  intros Hclaim.
  assert (Hn : exists n : nat, N.of_nat n = 2 ^ 32)
    by (exists (N.to_nat (2 ^ 32)); apply N2Nat.id).
  destruct Hn as [n Hn].
  destruct (responses_reachable n) as (st & Hr & Hex & Hact & Hpc & Hnv & _).
  { rewrite Hn. reflexivity. }
  rewrite Hn in Hpc.
  specialize (Hclaim st alice S1 (aggregated (fhe := clear_FHE) S1 st) Hr).
  rewrite aggregateResults_eq, Hex, Hact, Hnv, Hpc in Hclaim.
  specialize (Hclaim eq_refl).
  rewrite result_at_aggregated, Hpc in Hclaim.
  case_decide; [|done]. discriminate Hclaim.
Qed.

(** ** Responses *)

Section Responses.
Context {fhe : FHEAdapter}.

(** What an accepted [submitResponse] passed and what it wrote. *)
Lemma submitResponse_done env id ext prf st st' :
  submitResponse env id ext prf st = Done tt st' ->
  exists v,
    FHE_fromExternal ext prf = Some v /\ FHE_isInitialized v = true /\
    survey_exists st id = true /\ isActive (survey_at st id) = true /\
    responded_at st id (msg_sender env) = false /\
    st' = submitted env id v st.
Proof.
  rewrite submitResponse_eq. intros H.
  destruct (survey_exists st id); cbn [negb] in H; [|done].
  destruct (isActive (survey_at st id)); cbn [negb] in H; [|done].
  destruct (responded_at st id (msg_sender env)); [done|].
  destruct (FHE_fromExternal ext prf) as [v|]; [|done].
  destruct (FHE_isInitialized v) eqn:Hi; cbn [negb] in H; [|done].
  destruct (_ <=? max_uint256); inversion H; subst. exists v. repeat split. exact Hi.
Qed.

(** C4. An accepted [submitResponse] imported a ciphertext [v] that the
    library validated, on an existing active survey; the accumulator is
    [v] when it is the first response and [FHE.add] of the old accumulator
    and [v] otherwise; the sender is marked as having responded and the
    participant count is one more. *)
Theorem submitResponse_accepted env id ext prf st st' :
  submitResponse env id ext prf st = Done tt st' ->
  exists v,
    FHE_fromExternal ext prf = Some v /\ FHE_isInitialized v = true /\
    survey_exists st id = true /\ isActive (survey_at st id) = true /\
    encryptedResponse (survey_at st' id) =
      (if participantCount (survey_at st id) =? 0 then v
       else FHE_add (encryptedResponse (survey_at st id)) v) /\
    responded_at st' id (msg_sender env) = true /\
    participantCount (survey_at st' id) = participantCount (survey_at st id) + 1.
Proof.
  intros H. apply submitResponse_done in H as (v & Hv & Hi & Hex & Hact & _ & ->).
  exists v. repeat apply conj; try done.
  - rewrite survey_at_submitted. by case_decide.
  - rewrite responded_at_submitted. case_decide as Hd; [done|]. by destruct Hd.
  - rewrite survey_at_submitted. by case_decide.
Qed.

(** Once a principal's response to a survey was accepted, the survey
    exists and the principal is marked, in every later state. *)
Lemma responded_forever env id ext prf st0 st1 st2 :
  submitResponse env id ext prf st0 = Done tt st1 ->
  steps st1 st2 ->
  survey_exists st2 id = true /\ responded_at st2 id (msg_sender env) = true.
Proof.
  intros H Hs.
  assert (Ht : transition st0 st1) by (apply step_transition; by exists env, (SubmitResponse id ext prf)).
  apply submitResponse_done in H as (v & _ & _ & Hex & _ & _ & ->).
  refine (steps_preserve
            (fun s => survey_exists s id = true /\ responded_at s id (msg_sender env) = true)
            _ _ _ Hs _).
  - intros s s' Hss [H1 H2]. split.
    + by apply (transition_exists s s' id Hss).
    + by apply (transition_responded s s' id _ Hss).
  - split; [by apply (transition_exists st0 _ id Ht)|].
    rewrite responded_at_submitted. case_decide as Hd; [done|]. by destruct Hd.
Qed.

(** C5 (as amended). After an accepted response of a principal to a
    survey, every later [submitResponse] of that principal to that survey
    fails, with DuplicateResponse while the survey is active and with
    Inactive once it is not, and the failed call leaves the storage, hence
    the participant count, as it was. *)
Theorem submitResponse_once env id ext prf st0 st1 :
  submitResponse env id ext prf st0 = Done tt st1 ->
  forall st2 env' ext' prf',
    steps st1 st2 -> msg_sender env' = msg_sender env ->
    submitResponse env' id ext' prf' st2 =
      Reverted (if isActive (survey_at st2 id) then DuplicateResponse else Inactive) st2 /\
    fst (transact (submitResponse env' id ext' prf') st2) = st2 /\
    participantCount
      (survey_at (fst (transact (submitResponse env' id ext' prf') st2)) id) =
    participantCount (survey_at st2 id).
Proof.
  intros H st2 env' ext' prf' Hs Hsender.
  destruct (responded_forever _ _ _ _ _ _ _ H Hs) as [Hex Hr].
  assert (E : submitResponse env' id ext' prf' st2 =
              Reverted (if isActive (survey_at st2 id) then DuplicateResponse
                        else Inactive) st2).
  { rewrite submitResponse_eq, Hex, Hsender, Hr. cbn [negb].
    by destruct (isActive (survey_at st2 id)). }
  unfold transact. rewrite E. done.
Qed.

End Responses.

(** The scenario states as transitions. *)
Lemma scenario_reachable :
  reachable (fhe := clear_FHE) st_created /\
  steps (fhe := clear_FHE) st_created st_open /\
  steps (fhe := clear_FHE) st_open st_pending /\
  steps (fhe := clear_FHE) st_pending st_closed /\
  steps (fhe := clear_FHE) st_pending st_moved.
Proof.
  repeat apply conj.
  - apply steps_one. by constructor.
  - apply steps_one.
    by apply (T_submit (fhe := clear_FHE) alice S1 7 some_proof 7
                st_created).
  - apply steps_one. by apply (T_aggregate (fhe := clear_FHE) S1 st_open).
  - apply steps_one.
    by apply (T_verify (fhe := clear_FHE) S1 clear_7 some_proof st_pending).
  - apply steps_one.
    by apply (T_submit (fhe := clear_FHE) bob S1 5 some_proof 5 st_pending).
Qed.

(** A first response of 7, and a second one of 5 on top of it. *)
Lemma submitResponse_accepted_witness :
  submitResponse (fhe := clear_FHE) alice S1 7 some_proof
    st_created = Done tt st_open /\
  submitResponse (fhe := clear_FHE) bob S1 5 some_proof st_pending = Done tt st_moved /\
  (encryptedResponse (survey_at st_open S1) = 7 /\
   participantCount (survey_at st_open S1) = 1) /\
  (encryptedResponse (survey_at st_moved S1) = 12 /\
   responded_at st_moved S1 (msg_sender bob) = true /\
   participantCount (survey_at st_moved S1) = 2).
Proof.
  assert (E1 : submitResponse (fhe := clear_FHE) alice S1 7 some_proof
                 st_created = Done tt st_open)
    by (vm_compute; reflexivity).
  assert (E2 : submitResponse (fhe := clear_FHE) bob S1 5 some_proof st_pending
               = Done tt st_moved)
    by (vm_compute; reflexivity).
  split; [exact E1|]. split; [exact E2|]. split.
  - destruct (submitResponse_accepted (fhe := clear_FHE) _ _ _ _ _ _ E1)
      as (v & Hv & _ & _ & _ & Hacc & _ & Hpc).
    rewrite Hacc, Hpc. injection Hv as <-. vm_compute. done.
  - destruct (submitResponse_accepted (fhe := clear_FHE) _ _ _ _ _ _ E2)
      as (v & Hv & _ & _ & _ & Hacc & Hr & Hpc).
    rewrite Hacc, Hpc, Hr. injection Hv as <-. vm_compute. done.
Defined.

(** C5 (counterexample). Alice's response is accepted; the survey is then
    aggregated and verified; her next [submitResponse] fails with Inactive,
    not with DuplicateResponse. *)
Lemma submitResponse_later_counterexample :
  ~ (forall env id ext prf st0 st1 st2 ext' prf',
       submitResponse (fhe := clear_FHE) env id ext prf st0 = Done tt st1 ->
       steps (fhe := clear_FHE) st1 st2 ->
       submitResponse (fhe := clear_FHE) env id ext' prf' st2
         = Reverted DuplicateResponse st2).
Proof.
  intros Hclaim.
  specialize (Hclaim alice S1 7 some_proof st_created
                st_open st_closed 7 some_proof).
  assert (E : submitResponse (fhe := clear_FHE) alice S1 7 some_proof st_closed
              = Reverted Inactive st_closed) by (vm_compute; reflexivity).
  rewrite E in Hclaim.
  assert (Reverted (A := unit) Inactive st_closed = Reverted DuplicateResponse st_closed)
    as Habs; [|discriminate Habs].
  apply Hclaim; [vm_compute; reflexivity|].
  destruct scenario_reachable as (_ & _ & H1 & H2 & _).
  by apply steps_transitive with st_pending.
Qed.

(** Alice responds again: refused as a duplicate while the survey is
    pending, as inactive once it is verified. *)
Lemma submitResponse_once_witness :
  submitResponse (fhe := clear_FHE) alice S1 7 some_proof
    st_created = Done tt st_open /\
  submitResponse (fhe := clear_FHE) alice S1 9 some_proof st_pending
    = Reverted DuplicateResponse st_pending /\
  submitResponse (fhe := clear_FHE) alice S1 9 some_proof st_closed
    = Reverted Inactive st_closed /\
  participantCount
    (survey_at (fst (transact (submitResponse (fhe := clear_FHE) alice S1 9 some_proof)
                              st_pending)) S1) = 1.
Proof.
  assert (E1 : submitResponse (fhe := clear_FHE) alice S1 7 some_proof
                 st_created = Done tt st_open)
    by (vm_compute; reflexivity).
  destruct scenario_reachable as (_ & _ & H1 & H2 & _).
  pose proof (submitResponse_once (fhe := clear_FHE) _ _ _ _ _ _ E1
                st_pending alice 9 some_proof H1 eq_refl) as (Ha & _ & Hc).
  pose proof (submitResponse_once (fhe := clear_FHE) _ _ _ _ _ _ E1
                st_closed alice 9 some_proof
                (steps_transitive _ _ _ H1 H2) eq_refl) as (Hb & _).
  split; [exact E1|]. split; [exact Ha|]. split; [exact Hb|].
  rewrite Hc. vm_compute. reflexivity.
Defined.

(** ** Finalisation *)

Section Finalisation.
Context {fhe : FHEAdapter}.

(** What the three functions do on a closed survey. *)
Lemma closed_rejects st id :
  closed st id ->
  (forall env ext prf, submitResponse env id ext prf st = Reverted Inactive st) /\
  (forall env, aggregateResults env id st = Reverted Inactive st) /\
  (forall env clear prf, verifyResults env id clear prf st = Reverted AlreadyVerified st).
Proof.
  intros (Hex & Hv & Hia). repeat split; intros.
  - by rewrite submitResponse_eq, Hex, Hia.
  - by rewrite aggregateResults_eq, Hex, Hia.
  - by rewrite verifyResults_eq, Hex, Hv.
Qed.

Lemma closed_forever st st' id : steps st st' -> closed st id -> closed st' id.
Proof.
  apply (steps_preserve (fun s => closed s id)).
  intros s s' Ht Hc. by apply (transition_closed s s' id Ht).
Qed.

(** C6. In a reachable state, a survey whose result is verified is
    inactive; and in that state and every later one the result is still
    verified, the survey still inactive, [submitResponse] fails with
    Inactive, [aggregateResults] fails (with Inactive) and [verifyResults]
    fails with AlreadyVerified. *)
Theorem verified_is_terminal st id :
  reachable st ->
  isVerified (result_at st id) = true ->
  isActive (survey_at st id) = false /\
  forall st', steps st st' ->
    isVerified (result_at st' id) = true /\
    isActive (survey_at st' id) = false /\
    (forall env ext prf, submitResponse env id ext prf st' = Reverted Inactive st') /\
    (forall env, aggregateResults env id st' = Reverted Inactive st') /\
    (forall env clear prf,
        verifyResults env id clear prf st' = Reverted AlreadyVerified st').
Proof.
  intros Hr Hv. pose proof (reachable_verified_closed st id Hr Hv) as Hc.
  split; [apply Hc|].
  intros st' Hs. pose proof (closed_forever st st' id Hs Hc) as Hc'.
  split; [apply Hc'|]. split; [apply Hc'|]. by apply closed_rejects.
Qed.

(** [verifyResults] succeeds at most once for a survey: after it returned,
    it fails in every later state. *)
Lemma verifyResults_at_most_once env id clear prf st st' st'' env' clear' prf' :
  verifyResults env id clear prf st = Done tt st' ->
  steps st' st'' ->
  verifyResults env' id clear' prf' st'' = Reverted AlreadyVerified st''.
Proof.
  intros H Hs.
  assert (Hc : closed st' id).
  { rewrite verifyResults_eq in H.
    destruct (survey_exists st id) eqn:Hex; cbn [negb] in H; [|done].
    destruct (isVerified (result_at st id)); [done|].
    destruct (FHE_checkSignatures _ _ _); cbn [negb] in H; [|done].
    destruct (abi_decode_uint32 clear) as [v|]; [|done].
    destruct (v =? _); inversion H; subst. unfold closed.
    rewrite (survey_exists_by_title st _ id id), survey_at_verified, result_at_verified;
      rewrite ?survey_at_verified; repeat case_decide; done. }
  by apply (closed_rejects st'' id (closed_forever st' st'' id Hs Hc)).
Qed.

(** In a reachable state [aggregateResults] never gets as far as its
    AlreadyVerified check failing: a verified result means an inactive
    survey, which the Inactive check refuses first. *)
Lemma aggregateResults_never_AlreadyVerified env id st :
  reachable st -> aggregateResults env id st <> Reverted AlreadyVerified st.
Proof.
  intros Hr. rewrite aggregateResults_eq.
  destruct (survey_exists st id); cbn [negb]; [|done].
  destruct (isActive (survey_at st id)) eqn:Hact; cbn [negb]; [|done].
  destruct (0 <? _); cbn [negb]; [|done].
  destruct (isVerified (result_at st id)) eqn:Hv; [|done].
  destruct (reachable_verified_closed st id Hr Hv) as (_ & _ & Hia). congruence.
Qed.

(** ** Failure *)

(** C7. When a call fails, whatever the error, the storage after the
    transaction is the storage before it.  Moreover no write precedes a
    failed check: the storage at the point of failure is already the one
    before the call, for every error but the overflow of the participant
    counter, which is detected after the accumulator was written and is
    undone by the revert. *)
Theorem failure_leaves_storage env c st e st_fail :
  body env c st = Reverted e st_fail ->
  transact (body env c) st = (st, inl e) /\
  (e <> ArithmeticOverflow -> st_fail = st).
Proof.
  intros H. split; [unfold transact; by rewrite H|].
  destruct c as [id t q|id ext prf|id|id clear prf]; cbn [body] in H.
  - rewrite createSurvey_eq in H.
    destruct (survey_exists st id); inversion H; done.
  - rewrite submitResponse_eq in H.
    destruct (survey_exists st id); cbn [negb] in H; [|inversion H; done].
    destruct (isActive (survey_at st id)); cbn [negb] in H; [|inversion H; done].
    destruct (responded_at st id (msg_sender env)); [inversion H; done|].
    destruct (FHE_fromExternal ext prf) as [v|]; [|inversion H; done].
    destruct (FHE_isInitialized v); cbn [negb] in H; [|inversion H; done].
    destruct (_ <=? max_uint256); inversion H; done.
  - rewrite aggregateResults_eq in H.
    destruct (survey_exists st id); cbn [negb] in H; [|inversion H; done].
    destruct (isActive (survey_at st id)); cbn [negb] in H; [|inversion H; done].
    destruct (0 <? _); cbn [negb] in H; [|inversion H; done].
    destruct (isVerified (result_at st id)); inversion H; done.
  - rewrite verifyResults_eq in H.
    destruct (survey_exists st id); cbn [negb] in H; [|inversion H; done].
    destruct (isVerified (result_at st id)); [inversion H; done|].
    destruct (FHE_checkSignatures _ _ _); cbn [negb] in H; [|inversion H; done].
    destruct (abi_decode_uint32 clear) as [v|]; [|inversion H; done].
    destruct (v =? _); inversion H; done.
Qed.

End Finalisation.

(** The verified survey refuses all three calls. *)
Lemma verified_is_terminal_witness :
  (reachable (fhe := clear_FHE) st_closed /\
   isVerified (result_at st_closed S1) = true) /\
  isActive (survey_at st_closed S1) = false /\
  submitResponse (fhe := clear_FHE) bob S1 5 some_proof st_closed
    = Reverted Inactive st_closed /\
  aggregateResults (fhe := clear_FHE) alice S1 st_closed = Reverted Inactive st_closed /\
  verifyResults (fhe := clear_FHE) carol S1 clear_7 some_proof st_closed
    = Reverted AlreadyVerified st_closed.
Proof.
  assert (Hr : reachable (fhe := clear_FHE) st_closed).
  { destruct scenario_reachable as (H0 & H1 & H2 & H3 & _).
    exact (steps_transitive _ _ _
             (steps_transitive _ _ _ (steps_transitive _ _ _ H0 H1) H2) H3). }
  assert (Hv : isVerified (result_at st_closed S1) = true) by (vm_compute; reflexivity).
  destruct (verified_is_terminal (fhe := clear_FHE) st_closed S1 Hr Hv) as (Hia & Hlater).
  destruct (Hlater st_closed (steps_refl _)) as (_ & _ & Hs & Ha & Hvf).
  split; [split; [exact Hr|exact Hv]|].
  split; [exact Hia|]. split; [apply Hs|]. split; [apply Ha|apply Hvf].
Defined.

(** A refused duplicate response. *)
Lemma failure_leaves_storage_witness :
  body (fhe := clear_FHE) alice (SubmitResponse S1 9 some_proof) st_pending
    = Reverted DuplicateResponse st_pending /\
  transact (body (fhe := clear_FHE) alice (SubmitResponse S1 9 some_proof)) st_pending
    = (st_pending, inl DuplicateResponse).
Proof.
  assert (E : body (fhe := clear_FHE) alice (SubmitResponse S1 9 some_proof) st_pending
              = Reverted DuplicateResponse st_pending) by (vm_compute; reflexivity).
  split; [exact E|].
  apply (failure_leaves_storage (fhe := clear_FHE) _ _ _ _ _ E).
Defined.

(** The one failure that comes after a write: with the participant
    counter at its maximum the accumulator is written before the increment
    overflows.  The transaction still leaves the storage as it was. *)
Example overflow_after_write :
  body (fhe := clear_FHE) bob (SubmitResponse S1 5 some_proof) st_full
    = Reverted ArithmeticOverflow (accumulated (fhe := clear_FHE) S1 5 st_full) /\
  encryptedResponse (survey_at (accumulated (fhe := clear_FHE) S1 5 st_full) S1) = 9 /\
  encryptedResponse (survey_at st_full S1) = 4 /\
  fst (transact (body (fhe := clear_FHE) bob (SubmitResponse S1 5 some_proof)) st_full)
    = st_full.
Proof. repeat split; vm_compute; reflexivity. Qed.

(** ** Between aggregation and verification *)

Section Pending.
Context {fhe : FHEAdapter}.

Lemma responded_at_init id who : responded_at init_storage id who = false.
Proof. unfold responded_at, init_storage. cbn [hasResponded]. by rewrite !lookup_empty. Qed.

Lemma result_at_init id : result_at init_storage id = zero_AggregationResult.
Proof. unfold result_at, init_storage. cbn [results]. by rewrite lookup_empty. Qed.

(** C8. Take any title that is not empty and any two inputs the library
    accepts.  The state after creating the survey, one response and
    [aggregateResults] is reachable; it holds the claim computed from the
    first ciphertext and the survey is still active; and a response from
    another account is accepted there: the accumulator becomes [FHE.add]
    of the two ciphertexts while the recorded claim stays as it was. *)
Theorem response_after_aggregate envC env1 env2 id t q ext1 prf1 v1 ext2 prf2 v2 :
  (0 < String.length t)%nat ->
  FHE_fromExternal ext1 prf1 = Some v1 -> FHE_isInitialized v1 = true ->
  FHE_fromExternal ext2 prf2 = Some v2 -> FHE_isInitialized v2 = true ->
  msg_sender env1 <> msg_sender env2 ->
  let st := aggregated id (submitted env1 id v1 (created envC id t q init_storage)) in
  reachable st /\
  result_at st id = mkAggregationResult (FHE_decrypt v1) 1 false /\
  isActive (survey_at st id) = true /\
  encryptedResponse (survey_at st id) = v1 /\
  submitResponse env2 id ext2 prf2 st = Done tt (submitted env2 id v2 st) /\
  encryptedResponse (survey_at (submitted env2 id v2 st) id) = FHE_add v1 v2 /\
  participantCount (survey_at (submitted env2 id v2 st) id) = 2 /\
  result_at (submitted env2 id v2 st) id = result_at st id.
Proof.
  intros Ht Hv1 Hi1 Hv2 Hi2 Hne.
  set (st1 := created envC id t q init_storage).
  set (st2 := submitted env1 id v1 st1).
  intros st.
  assert (Hs1 : survey_at st1 id =
                mkSurvey t 0 0 q (msg_sender envC) (block_timestamp envC) true).
  { unfold st1. rewrite survey_at_created. by case_decide. }
  assert (Hex1 : survey_exists st1 id = true).
  { unfold survey_exists. rewrite Hs1. cbn [title]. by apply Nat.ltb_lt. }
  assert (T1 : transition init_storage st1) by (by constructor).
  assert (T2 : transition st1 st2).
  { apply T_submit with (ext := ext1) (prf := prf1); try done.
    - by rewrite Hs1.
    - by rewrite Hs1. }
  assert (Hs2 : survey_at st2 id =
                mkSurvey t v1 1 q (msg_sender envC) (block_timestamp envC) true).
  { unfold st2. rewrite survey_at_submitted, Hs1. by case_decide. }
  assert (Hex2 : survey_exists st2 id = true) by (by apply (transition_exists st1 st2 id T2)).
  assert (Hr2 : result_at st2 id = zero_AggregationResult).
  { unfold st2, st1. by rewrite result_at_submitted, result_at_created, result_at_init. }
  assert (T3 : transition st2 st).
  { apply T_aggregate; try done; by rewrite ?Hs2, ?Hr2. }
  assert (Hs3 : survey_at st id = survey_at st2 id) by apply survey_at_aggregated.
  assert (Hex3 : survey_exists st id = true) by (by apply (transition_exists st2 st id T3)).
  assert (Hresp : responded_at st id (msg_sender env2) = false).
  { unfold st, st2, st1.
    rewrite responded_at_aggregated, responded_at_submitted, responded_at_created,
      responded_at_init.
    case_decide as Hd; [|done]. by destruct Hd. }
  repeat apply conj.
  - unfold reachable.
    eapply steps_transitive; [|by apply steps_one].
    eapply steps_transitive; by apply steps_one.
  - unfold st. rewrite result_at_aggregated, Hs2. by case_decide.
  - by rewrite Hs3, Hs2.
  - by rewrite Hs3, Hs2.
  - rewrite submitResponse_eq, Hex3, Hresp, Hv2, Hi2, Hs3, Hs2. done.
  - rewrite survey_at_submitted, Hs3, Hs2. by case_decide.
  - rewrite survey_at_submitted, Hs3, Hs2. by case_decide.
  - by rewrite result_at_submitted.
Qed.

End Pending.

(** Bob's 5 arrives after the claim of 7 was recorded. *)
Lemma response_after_aggregate_witness :
  ((0 < String.length "Mood")%nat /\ msg_sender alice <> msg_sender bob) /\
  reachable (fhe := clear_FHE) st_pending /\
  submitResponse (fhe := clear_FHE) bob S1 5 some_proof st_pending = Done tt st_moved /\
  (sum (result_at st_pending S1) = 7 /\ encryptedResponse (survey_at st_pending S1) = 7) /\
  (sum (result_at st_moved S1) = 7 /\ encryptedResponse (survey_at st_moved S1) = 12).
Proof.
  assert (Hlen : (0 < String.length "Mood")%nat) by (vm_compute; lia).
  assert (Hne : msg_sender alice <> msg_sender bob) by (vm_compute; congruence).
  destruct (response_after_aggregate (fhe := clear_FHE) alice alice bob S1 "Mood" 3
              7 some_proof 7 5 some_proof 5 Hlen eq_refl eq_refl eq_refl eq_refl Hne)
    as (Hr & Hres & _ & Hacc & Hsub & Hacc' & _ & Hres').
  split; [split; assumption|]. split; [exact Hr|]. split; [exact Hsub|].
  split; [split; [exact (f_equal sum Hres)|exact Hacc]|].
  split; [exact (f_equal sum (eq_trans Hres' Hres))|exact Hacc'].
Defined.

(** ** Queries *)

Section Queries.
Context {fhe : FHEAdapter}.

(** C9 (as amended). The view functions leave the storage as it is.
    [getSurvey] and [getResults] fail with NotFound when the survey does
    not exist, and otherwise return the stored fields of the survey and of
    its result.  [hasUserResponded] never fails: it returns the stored
    flag, which, in a reachable state, is false when the survey does not
    exist.  A survey exists when the title stored under its identifier is
    not empty; in a reachable state an identifier that is not listed in
    [surveyIds] has none. *)
Theorem queries_read st id who :
  (survey_exists st id = false ->
   getSurvey id st = Reverted NotFound st /\ getResults id st = Reverted NotFound st) /\
  (survey_exists st id = true ->
   getSurvey id st =
     Done (title (survey_at st id), participantCount (survey_at st id),
           questionCount (survey_at st id), creator (survey_at st id),
           createdAt (survey_at st id), isActive (survey_at st id)) st /\
   getResults id st =
     Done (sum (result_at st id), count (result_at st id),
           isVerified (result_at st id)) st) /\
  hasUserResponded id who st = Done (responded_at st id who) st /\
  (reachable st -> survey_exists st id = false ->
   hasUserResponded id who st = Done false st) /\
  (reachable st -> ~ In id (surveyIds st) -> survey_exists st id = false).
Proof.
  rewrite getSurvey_eq, getResults_eq. repeat apply conj.
  - by intros ->.
  - by intros ->.
  - reflexivity.
  - intros Hr Hex. unfold hasUserResponded, sload.
    by rewrite (reachable_respondents st id who Hr Hex).
  - intros Hr Hni.
    by destruct (untouched_reads st id who (reachable_unlisted st id Hr Hni)).
Qed.

(** C10. [verifyResults] does not ask for a previous [aggregateResults].
    On an existing survey for which no result was ever stored, the result
    reads as sum 0, count 0, not verified; so with a proof the library
    accepts for the stored accumulator and a clear value that decodes to 0,
    [verifyResults] returns, the result is verified with sum 0 and count 0,
    and the survey is inactive. *)
Theorem verifyResults_without_aggregate env id clear prf st :
  survey_exists st id = true ->
  results st !! id = None ->
  FHE_checkSignatures [FHE_toBytes32 (encryptedResponse (survey_at st id))] clear prf
    = true ->
  abi_decode_uint32 clear = Some 0 ->
  result_at st id = mkAggregationResult 0 0 false /\
  verifyResults env id clear prf st = Done tt (verified id st) /\
  result_at (verified id st) id = mkAggregationResult 0 0 true /\
  isActive (survey_at (verified id st) id) = false.
Proof.
  intros Hex Hnone Hok Hdec.
  assert (Hr : result_at st id = mkAggregationResult 0 0 false)
    by (unfold result_at; by rewrite Hnone).
  repeat apply conj.
  - exact Hr.
  - by rewrite verifyResults_eq, Hex, Hr, Hok, Hdec.
  - rewrite result_at_verified, Hr. by case_decide.
  - rewrite survey_at_verified. by case_decide.
Qed.

End Queries.

(** C9 (counterexample). On a freshly deployed contract no survey exists,
    and [hasUserResponded] returns false instead of failing with
    NotFound. *)
Lemma hasUserResponded_counterexample :
  survey_exists init_storage S1 = false /\
  ~ In S1 (surveyIds init_storage) /\
  hasUserResponded S1 1001 init_storage = Done false init_storage /\
  hasUserResponded S1 1001 init_storage <> Reverted NotFound init_storage.
Proof. repeat split; [intros []|discriminate]. Qed.

(** The queries on the pending survey and on a fresh contract. *)
Lemma queries_read_witness :
  (survey_exists st_pending S1 = true /\
   reachable (fhe := clear_FHE) init_storage /\ ~ In S1 (surveyIds init_storage)) /\
  getSurvey S1 st_pending = Done ("Mood"%string, 1, 3, 1001, 10, true) st_pending /\
  getResults S1 st_pending = Done (7, 1, false) st_pending /\
  hasUserResponded S1 1001 st_pending = Done true st_pending /\
  getSurvey S1 init_storage = Reverted NotFound init_storage /\
  getResults S1 init_storage = Reverted NotFound init_storage /\
  hasUserResponded S1 1001 init_storage = Done false init_storage.
Proof.
  assert (E : survey_exists st_pending S1 = true) by (vm_compute; reflexivity).
  assert (Hr : reachable (fhe := clear_FHE) init_storage) by apply steps_refl.
  assert (Hni : ~ In S1 (surveyIds init_storage)) by (intros []).
  destruct (queries_read (fhe := clear_FHE) st_pending S1 1001) as (_ & Hex & Hresp & _).
  destruct (Hex E) as (Hs & Hres).
  destruct (queries_read (fhe := clear_FHE) init_storage S1 1001)
    as (Hnone & _ & _ & Hflag & Hun).
  destruct (Hnone (Hun Hr Hni)) as (Hs0 & Hres0).
  split; [tauto|].
  split; [rewrite Hs; vm_compute; reflexivity|].
  split; [rewrite Hres; vm_compute; reflexivity|].
  split; [rewrite Hresp; vm_compute; reflexivity|].
  split; [exact Hs0|]. split; [exact Hres0|].
  exact (Hflag Hr (Hun Hr Hni)).
Defined.

(** A survey verified right after its creation. *)
Lemma verifyResults_without_aggregate_witness :
  (survey_exists st_created S1 = true /\ results st_created !! S1 = None) /\
  reachable (fhe := clear_FHE) st_created /\
  verifyResults (fhe := clear_FHE) carol S1 clear_0 some_proof st_created
    = Done tt st_closed_empty /\
  result_at st_closed_empty S1 = mkAggregationResult 0 0 true /\
  isActive (survey_at st_closed_empty S1) = false.
Proof.
  assert (E1 : survey_exists st_created S1 = true) by (vm_compute; reflexivity).
  assert (E2 : results st_created !! S1 = None) by (vm_compute; reflexivity).
  destruct (verifyResults_without_aggregate (fhe := clear_FHE) carol S1 clear_0
              some_proof st_created E1 E2 eq_refl eq_refl) as (_ & Hrun & Hres & Hia).
  split; [split; assumption|].
  split; [apply scenario_reachable|].
  split; [exact Hrun|]. split; [exact Hres|exact Hia].
Defined.

(** ** Further properties of the contract *)

Section Refusals.
Context {fhe : FHEAdapter}.

(** X1. The checks of [submitResponse], in their order: an unknown survey
    is NotFound; an inactive one Inactive; a sender already marked is a
    DuplicateResponse; an input the library rejects, or imports as the
    uninitialised handle, is an InvalidCiphertext; and a call that passes
    all of them is accepted unless the participant counter is at its
    maximum. *)
Theorem submitResponse_outcomes env id ext prf st :
  (survey_exists st id = false ->
   submitResponse env id ext prf st = Reverted NotFound st) /\
  (survey_exists st id = true -> isActive (survey_at st id) = false ->
   submitResponse env id ext prf st = Reverted Inactive st) /\
  (survey_exists st id = true -> isActive (survey_at st id) = true ->
   responded_at st id (msg_sender env) = true ->
   submitResponse env id ext prf st = Reverted DuplicateResponse st) /\
  (survey_exists st id = true -> isActive (survey_at st id) = true ->
   responded_at st id (msg_sender env) = false ->
   (FHE_fromExternal ext prf = None \/
    exists v, FHE_fromExternal ext prf = Some v /\ FHE_isInitialized v = false) ->
   submitResponse env id ext prf st = Reverted InvalidCiphertext st) /\
  (forall v,
   survey_exists st id = true -> isActive (survey_at st id) = true ->
   responded_at st id (msg_sender env) = false ->
   FHE_fromExternal ext prf = Some v -> FHE_isInitialized v = true ->
   participantCount (survey_at st id) < max_uint256 ->
   submitResponse env id ext prf st = Done tt (submitted env id v st)).
Proof.
  rewrite submitResponse_eq. repeat apply conj.
  - by intros ->.
  - by intros -> ->.
  - by intros -> -> ->.
  - intros -> -> -> [->|(v & -> & ->)]; done.
  - intros v -> -> -> -> -> Hlt. cbn [negb].
    by destruct (N.leb_spec (participantCount (survey_at st id) + 1) max_uint256); [|lia].
Qed.

(** X2. What [verifyResults] refuses before and beside the proof check:
    an unknown survey is NotFound; a verified one AlreadyVerified, whatever
    the proof; a clear value that does not decode fails even with a proof
    the library accepts; and a clear value of fewer than 32 bytes is never
    accepted. *)
Theorem verifyResults_refusals env id clear prf st :
  (survey_exists st id = false ->
   verifyResults env id clear prf st = Reverted NotFound st) /\
  (survey_exists st id = true -> isVerified (result_at st id) = true ->
   verifyResults env id clear prf st = Reverted AlreadyVerified st) /\
  (survey_exists st id = true -> isVerified (result_at st id) = false ->
   FHE_checkSignatures [FHE_toBytes32 (encryptedResponse (survey_at st id))]
                       clear prf = true ->
   abi_decode_uint32 clear = None ->
   verifyResults env id clear prf st = Reverted DecodeFailure st) /\
  ((length clear < 32)%nat ->
   forall st', verifyResults env id clear prf st <> Done tt st').
Proof.
  rewrite verifyResults_eq. repeat apply conj.
  - by intros ->.
  - by intros -> ->.
  - by intros -> -> -> ->.
  - intros Hlen st'.
    assert (Hdec : abi_decode_uint32 clear = None).
    { unfold abi_decode_uint32.
      by destruct (Nat.ltb_spec (length clear) 32); [|lia]. }
    rewrite Hdec.
    destruct (negb (survey_exists st id)); [done|].
    destruct (isVerified (result_at st id)); [done|].
    by destruct (negb (FHE_checkSignatures _ clear prf)).
Qed.

End Refusals.

(** On the survey with one response: an empty input proof, and the
    handle 0. *)
Lemma submitResponse_outcomes_witness :
  (survey_exists st_open S1 = true /\ isActive (survey_at st_open S1) = true /\
   responded_at st_open S1 (msg_sender bob) = false) /\
  submitResponse (fhe := clear_FHE) bob S1 5 [] st_open
    = Reverted InvalidCiphertext st_open /\
  submitResponse (fhe := clear_FHE) bob S1 0 some_proof st_open
    = Reverted InvalidCiphertext st_open /\
  submitResponse (fhe := clear_FHE) alice S1 5 some_proof st_open
    = Reverted DuplicateResponse st_open.
Proof.
  assert (E1 : survey_exists st_open S1 = true) by (vm_compute; reflexivity).
  assert (E2 : isActive (survey_at st_open S1) = true) by (vm_compute; reflexivity).
  assert (E3 : responded_at st_open S1 (msg_sender bob) = false)
    by (vm_compute; reflexivity).
  assert (E4 : responded_at st_open S1 (msg_sender alice) = true)
    by (vm_compute; reflexivity).
  split; [tauto|]. split; [|split].
  - apply (proj1 (proj2 (proj2 (proj2
             (submitResponse_outcomes (fhe := clear_FHE) bob S1 5 [] st_open)))) E1 E2 E3).
    by left.
  - apply (proj1 (proj2 (proj2 (proj2
             (submitResponse_outcomes (fhe := clear_FHE) bob S1 0 some_proof st_open))))
             E1 E2 E3).
    right. by exists 0.
  - apply (proj1 (proj2 (proj2
             (submitResponse_outcomes (fhe := clear_FHE) alice S1 5 some_proof st_open)))
             E1 E2 E4).
Defined.

(** A clear value of one byte, with a proof, on the pending survey. *)
Lemma verifyResults_refusals_witness :
  (length [Byte.x07] < 32)%nat /\
  verifyResults (fhe := clear_FHE) carol S1 [Byte.x07] some_proof st_pending
    <> Done tt (verified S1 st_pending) /\
  verifyResults (fhe := clear_FHE) carol S1 clear_7 some_proof init_storage
    = Reverted NotFound init_storage.
Proof.
  assert (Hlen : (length [Byte.x07] < 32)%nat) by (vm_compute; lia).
  split; [exact Hlen|]. split.
  - apply (proj2 (proj2 (proj2
             (verifyResults_refusals (fhe := clear_FHE) carol S1 [Byte.x07] some_proof
                st_pending))) Hlen).
  - by apply (verifyResults_refusals (fhe := clear_FHE) carol S1 clear_7 some_proof
                init_storage).
Defined.

Section Frames.
Context {fhe : FHEAdapter}.

(** A call that returned, by function. *)
Lemma body_done env c st st' :
  body env c st = Done tt st' ->
  match c with
  | CreateSurvey id t q => survey_exists st id = false /\ st' = created env id t q st
  | SubmitResponse id ext prf =>
      exists v, FHE_fromExternal ext prf = Some v /\ survey_exists st id = true /\
                responded_at st id (msg_sender env) = false /\
                st' = submitted env id v st
  | AggregateResults id => survey_exists st id = true /\ st' = aggregated id st
  | VerifyResults id clear prf => survey_exists st id = true /\ st' = verified id st
  end.
Proof.
  destruct c as [id t q|id ext prf|id|id clear prf]; cbn [body]; intros H.
  - rewrite createSurvey_eq in H. destruct (survey_exists st id); by inversion H.
  - apply submitResponse_done in H as (v & Hv & _ & Hex & _ & Hr & ->). by exists v.
  - rewrite aggregateResults_eq in H.
    destruct (survey_exists st id); cbn [negb] in H; [|done].
    destruct (negb (isActive _)); [done|]. destruct (negb (0 <? _)); [done|].
    destruct (isVerified _); by inversion H.
  - rewrite verifyResults_eq in H.
    destruct (survey_exists st id); cbn [negb] in H; [|done].
    destruct (isVerified _); [done|]. destruct (negb (FHE_checkSignatures _ _ _)); [done|].
    destruct (abi_decode_uint32 clear) as [v|]; [|done].
    destruct (v =? _); by inversion H.
Qed.

(** X3. A call that returns touches one survey only: the record and the
    result of every other identifier are as before. *)
Theorem call_leaves_other_surveys env c st st' id :
  body env c st = Done tt st' ->
  id <> target c ->
  survey_at st' id = survey_at st id /\ result_at st' id = result_at st id.
Proof.
  intros H Hne. apply body_done in H.
  destruct c as [id0 t q|id0 ext prf|id0|id0 clear prf]; cbn [target] in Hne.
  - destruct H as [_ ->]. rewrite survey_at_created, result_at_created.
    by case_decide.
  - destruct H as (v & _ & _ & _ & ->). rewrite survey_at_submitted, result_at_submitted.
    by case_decide.
  - destruct H as [_ ->]. rewrite survey_at_aggregated, result_at_aggregated.
    by case_decide.
  - destruct H as [_ ->]. rewrite survey_at_verified, result_at_verified.
    by repeat case_decide.
Qed.

(** X4. The only participation flag a call changes is the one of the
    sender of an accepted [submitResponse], for the survey responded to,
    and it changes from false to true. *)
Theorem only_the_sender_is_marked env c st st' id who :
  body env c st = Done tt st' ->
  responded_at st' id who <> responded_at st id who ->
  (exists ext prf, c = SubmitResponse id ext prf) /\
  who = msg_sender env /\
  responded_at st id who = false /\ responded_at st' id who = true.
Proof.
  intros H Hch. apply body_done in H.
  destruct c as [id0 t q|id0 ext prf|id0|id0 clear prf].
  - destruct H as [_ ->]. by rewrite responded_at_created in Hch.
  - destruct H as (v & _ & _ & Hr & ->). rewrite responded_at_submitted in Hch |- *.
    case_decide as Hd; [|done]. destruct Hd as [-> Hw]. rewrite <- Hw in *.
    repeat split; eauto.
  - destruct H as [_ ->]. by rewrite responded_at_aggregated in Hch.
  - destruct H as [_ ->]. by rewrite responded_at_verified in Hch.
Qed.

(** X5. Once a survey exists, its title, question count, creator and
    creation time never change, and its participant count never goes
    down. *)
Theorem survey_header_is_fixed st st' id :
  steps st st' ->
  survey_exists st id = true ->
  survey_exists st' id = true /\
  title (survey_at st' id) = title (survey_at st id) /\
  questionCount (survey_at st' id) = questionCount (survey_at st id) /\
  creator (survey_at st' id) = creator (survey_at st id) /\
  createdAt (survey_at st' id) = createdAt (survey_at st id) /\
  participantCount (survey_at st id) <= participantCount (survey_at st' id).
Proof.
  intros Hs Hex.
  refine (steps_preserve
    (fun s => survey_exists s id = true /\
              title (survey_at s id) = title (survey_at st id) /\
              questionCount (survey_at s id) = questionCount (survey_at st id) /\
              creator (survey_at s id) = creator (survey_at st id) /\
              createdAt (survey_at s id) = createdAt (survey_at st id) /\
              participantCount (survey_at st id) <= participantCount (survey_at s id))
    _ _ _ Hs _).
  - intros s s' Ht (H0 & H1 & H2 & H3 & H4 & H5).
    split; [by apply (transition_exists s s' id Ht)|].
    destruct Ht as [env id0 t q s Hn|env id0 ext prf v s|id0 s|id0 clear prf s].
    + rewrite survey_at_created. case_decide; [congruence|done].
    + rewrite survey_at_submitted. case_decide; [subst id0|done].
      cbn [title questionCount creator createdAt participantCount
           with_participantCount with_encryptedResponse].
      repeat split; try done. lia.
    + by rewrite survey_at_aggregated.
    + rewrite survey_at_verified. case_decide; [subst id0|done]. done.
  - repeat split; try done.
Qed.

End Frames.

(** Bob's response to S1 leaves another identifier alone. *)
Lemma call_leaves_other_surveys_witness :
  (body (fhe := clear_FHE) bob (SubmitResponse S1 5 some_proof) st_pending
     = Done tt st_moved /\
   "S2"%string <> target (SubmitResponse S1 5 some_proof)) /\
  survey_at st_moved "S2" = survey_at st_pending "S2" /\
  result_at st_moved "S2" = result_at st_pending "S2".
Proof.
  assert (E : body (fhe := clear_FHE) bob (SubmitResponse S1 5 some_proof) st_pending
              = Done tt st_moved) by (vm_compute; reflexivity).
  assert (Hne : "S2"%string <> target (SubmitResponse S1 5 some_proof))
    by (vm_compute; congruence).
  split; [split; assumption|].
  exact (call_leaves_other_surveys (fhe := clear_FHE) _ _ _ _ _ E Hne).
Defined.

(** Bob's response marks Bob. *)
Lemma only_the_sender_is_marked_witness :
  (body (fhe := clear_FHE) bob (SubmitResponse S1 5 some_proof) st_pending
     = Done tt st_moved /\
   responded_at st_moved S1 1002 <> responded_at st_pending S1 1002) /\
  1002 = msg_sender bob /\
  responded_at st_pending S1 1002 = false /\ responded_at st_moved S1 1002 = true.
Proof.
  assert (E : body (fhe := clear_FHE) bob (SubmitResponse S1 5 some_proof) st_pending
              = Done tt st_moved) by (vm_compute; reflexivity).
  assert (Hch : responded_at st_moved S1 1002 <> responded_at st_pending S1 1002)
    by (vm_compute; congruence).
  split; [split; assumption|].
  apply (only_the_sender_is_marked (fhe := clear_FHE) _ _ _ _ _ _ E Hch).
Defined.

(** From creation to verification the header of S1 stays. *)
Lemma survey_header_is_fixed_witness :
  (steps (fhe := clear_FHE) st_created st_closed /\
   survey_exists st_created S1 = true) /\
  title (survey_at st_closed S1) = title (survey_at st_created S1) /\
  creator (survey_at st_closed S1) = creator (survey_at st_created S1) /\
  participantCount (survey_at st_created S1) <= participantCount (survey_at st_closed S1).
Proof.
  assert (Hs : steps (fhe := clear_FHE) st_created st_closed).
  { destruct scenario_reachable as (_ & H1 & H2 & H3 & _).
    exact (steps_transitive _ _ _ (steps_transitive _ _ _ H1 H2) H3). }
  assert (E : survey_exists st_created S1 = true) by (vm_compute; reflexivity).
  split; [split; assumption|].
  destruct (survey_header_is_fixed (fhe := clear_FHE) _ _ _ Hs E)
    as (_ & Ht & _ & Hc & _ & Hp).
  split; [exact Ht|]. split; [exact Hc|exact Hp].
Defined.

(** ** Counting *)

Lemma created_in_app l1 l2 : created_in (l1 ++ l2) = created_in l1 ++ created_in l2.
Proof. induction l1 as [|[] l1 IH]; cbn; by rewrite ?IH. Qed.

Lemma respondents_in_app id l1 l2 :
  respondents_in id (l1 ++ l2) = respondents_in id l1 ++ respondents_in id l2.
Proof. induction l1 as [|[] l1 IH]; cbn; try case_decide; cbn; by rewrite ?IH. Qed.

Lemma verified_in_app id l1 l2 :
  verified_in id (l1 ++ l2) = (verified_in id l1 + verified_in id l2)%nat.
Proof. induction l1 as [|[] l1 IH]; cbn; try case_decide; cbn; by rewrite ?IH. Qed.

Section Counting.
Context {fhe : FHEAdapter}.

Lemma reachable_next st st' : reachable st -> transition st st' -> reachable st'.
Proof. intros Hr Ht. eapply steps_transitive; [exact Hr|by apply steps_one]. Qed.

(** A rule for invariants of reachable states that may use, at each
    transition, that the state before is reachable. *)
Lemma reachable_ind_inv (P : Storage -> Prop) :
  P init_storage ->
  (forall st st', reachable st -> transition st st' -> P st -> P st') ->
  forall st, reachable st -> P st.
Proof.
  intros H0 Hstep st Hr.
  assert (H : reachable st /\ P st); [|by destruct H].
  refine (steps_preserve (fun s => reachable s /\ P s) _ _ _ Hr _).
  - intros s s' Ht [Hrs HP]. split; [by apply reachable_next with s|eauto].
  - split; [apply steps_refl|done].
Qed.

(** X6. In a reachable state the participant count of a survey is the
    number of principals recorded in [hasResponded] for it, and every
    recorded flag is true. *)
Theorem participantCount_counts_respondents st id :
  reachable st ->
  participantCount (survey_at st id) = N.of_nat (size (respondents st id)) /\
  (forall who b, respondents st id !! who = Some b -> b = true).
Proof.
  intros Hr. revert id.
  refine (reachable_ind_inv
    (fun s => forall id,
       participantCount (survey_at s id) = N.of_nat (size (respondents s id)) /\
       (forall who b, respondents s id !! who = Some b -> b = true)) _ _ st Hr).
  - intros id. split; [reflexivity|]. intros who b.
    unfold respondents, init_storage. cbn [hasResponded].
    by rewrite lookup_empty.
  - intros s s' Hrs Ht Inv id. destruct (Inv id) as [Hn Ht1].
    destruct Ht as [env id0 t q s Hn0|env id0 ext prf v s Hex Hact Hresp|id0 s|id0 clear prf s].
    + change (respondents (created env id0 t q s) id) with (respondents s id).
      split; [|done]. rewrite survey_at_created. case_decide; [subst id0|done].
      cbn [participantCount].
      assert (Hempty : respondents s id = ∅).
      { apply map_eq. intros who. rewrite lookup_empty.
        destruct (respondents s id !! who) as [b|] eqn:E; [|done].
        pose proof (Ht1 who b E) as ->.
        pose proof (reachable_respondents s id who Hrs Hn0) as Hf.
        unfold responded_at in Hf. fold (respondents s id) in Hf.
        by rewrite E in Hf. }
      by rewrite Hempty.
    + destruct (decide (id0 = id)) as [->|Hne].
      * assert (Hm : respondents (submitted env id v s) id =
                     <[msg_sender env := true]> (respondents s id)).
        { unfold respondents, submitted, add_log, set_responded.
          cbn [hasResponded]. by rewrite lookup_insert_eq. }
        assert (Hfresh : respondents s id !! msg_sender env = None).
        { destruct (respondents s id !! msg_sender env) as [b|] eqn:E; [|done].
          pose proof (Ht1 _ b E) as ->.
          unfold responded_at in Hresp. fold (respondents s id) in Hresp.
          by rewrite E in Hresp. }
        rewrite Hm, survey_at_submitted. case_decide; [|done]. split.
        -- cbn [participantCount with_participantCount].
           rewrite map_size_insert_None by done. lia.
        -- intros who b. destruct (decide (msg_sender env = who)) as [<-|Hw].
           ++ rewrite lookup_insert_eq. congruence.
           ++ rewrite lookup_insert_ne by done. apply Ht1.
      * assert (Hm : respondents (submitted env id0 v s) id = respondents s id).
        { unfold respondents, submitted, add_log, set_responded.
          cbn [hasResponded]. by rewrite lookup_insert_ne. }
        rewrite Hm, survey_at_submitted. by case_decide.
    + done.
    + change (respondents (verified id0 s) id) with (respondents s id).
      rewrite survey_at_verified. case_decide; [subst id0|done]. done.
Qed.

(** X7. In a reachable state the participant count of a survey is the
    number of [ResponseSubmitted] events logged for it; the respondents of
    these events are pairwise distinct and are exactly the principals that
    [hasUserResponded] reports. *)
Theorem participantCount_counts_events st id :
  reachable st ->
  participantCount (survey_at st id)
    = N.of_nat (length (respondents_in id (logs st))) /\
  NoDup (respondents_in id (logs st)) /\
  (forall who, In who (respondents_in id (logs st)) <->
               hasUserResponded id who st = Done true st).
Proof.
  intros Hr.
  assert (Hflag : forall who, hasUserResponded id who st = Done true st <->
                              responded_at st id who = true).
  { intros who. unfold hasUserResponded, sload. split; [by inversion 1|by intros ->]. }
  cut (participantCount (survey_at st id)
         = N.of_nat (length (respondents_in id (logs st))) /\
       List.NoDup (respondents_in id (logs st)) /\
       (forall who, In who (respondents_in id (logs st)) <->
                    responded_at st id who = true)).
  { intros (H1 & H2 & H3). split; [done|]. split; [by apply NoDup_ListNoDup|].
    intros who. by rewrite Hflag. }
  clear Hflag. revert id.
  refine (reachable_ind_inv
    (fun s => forall id,
       participantCount (survey_at s id)
         = N.of_nat (length (respondents_in id (logs s))) /\
       List.NoDup (respondents_in id (logs s)) /\
       (forall who, In who (respondents_in id (logs s)) <->
                    responded_at s id who = true)) _ _ st Hr).
  - intros id. split; [reflexivity|]. split; [constructor|].
    intros who. rewrite responded_at_init. cbn. split; [tauto|discriminate].
  - intros s s' Hrs Ht Inv id. destruct (Inv id) as (Hn & Hnd & Hin).
    destruct Ht as [env id0 t q s Hn0|env id0 ext prf v s Hex Hact Hresp|id0 s|id0 clear prf s].
    + assert (Hl : respondents_in id (logs (created env id0 t q s))
                   = respondents_in id (logs s)).
      { unfold created, add_log. cbn [logs push_surveyId set_survey].
        rewrite respondents_in_app. cbn. by rewrite app_nil_r. }
      rewrite Hl, survey_at_created. split; [|done].
      case_decide; [subst id0|done]. cbn [participantCount].
      destruct (respondents_in id (logs s)) as [|who l] eqn:E; [done|].
      assert (Hf : responded_at s id who = true) by (apply Hin; by left).
      by rewrite (reachable_respondents s id who Hrs Hn0) in Hf.
    + destruct (decide (id0 = id)) as [->|Hne].
      * assert (Hl : respondents_in id (logs (submitted env id v s))
                     = respondents_in id (logs s) ++ [msg_sender env]).
        { unfold submitted, add_log. cbn [logs set_responded set_survey].
          rewrite respondents_in_app. cbn. by case_decide. }
        rewrite Hl, survey_at_submitted. case_decide; [|done].
        split; [|split].
        -- cbn [participantCount with_participantCount].
           rewrite length_app. cbn [length]. lia.
        -- apply List.NoDup_app; [done|repeat constructor; by intros []|].
           intros who Hw [<-|[]]. apply Hin in Hw. congruence.
        -- intros who. rewrite in_app_iff, Hin, responded_at_submitted. cbn [In].
           case_decide as Hd.
           ++ destruct Hd as [_ <-]. tauto.
           ++ split; [intros [?|[?|[]]]; [done|]|tauto]. tauto.
      * assert (Hl : respondents_in id (logs (submitted env id0 v s))
                     = respondents_in id (logs s)).
        { unfold submitted, add_log. cbn [logs set_responded set_survey].
          rewrite respondents_in_app. cbn. case_decide; [done|by rewrite app_nil_r]. }
        rewrite Hl, survey_at_submitted. case_decide; [done|].
        split; [done|]. split; [done|].
        intros who. rewrite responded_at_submitted. case_decide as Hd; [|done].
        by destruct Hd.
    + assert (Hl : respondents_in id (logs (aggregated id0 s))
                   = respondents_in id (logs s)).
      { unfold aggregated, add_log. cbn [logs set_result].
        rewrite respondents_in_app. cbn. by rewrite app_nil_r. }
      by rewrite Hl.
    + assert (Hl : respondents_in id (logs (verified id0 s))
                   = respondents_in id (logs s)).
      { unfold verified, add_log. cbn [logs set_result set_survey].
        rewrite respondents_in_app. cbn. by rewrite app_nil_r. }
      rewrite Hl, survey_at_verified. split; [by case_decide; subst|done].
Qed.

End Counting.

(** The states of the scenario are reachable. *)
Lemma scenario_states_reachable :
  reachable (fhe := clear_FHE) st_open /\
  reachable (fhe := clear_FHE) st_pending /\
  reachable (fhe := clear_FHE) st_moved /\
  reachable (fhe := clear_FHE) st_closed.
Proof.
  destruct scenario_reachable as (H0 & H1 & H2 & H3 & H4).
  assert (R1 : reachable (fhe := clear_FHE) st_open)
    by exact (steps_transitive _ _ _ H0 H1).
  assert (R2 : reachable (fhe := clear_FHE) st_pending)
    by exact (steps_transitive _ _ _ R1 H2).
  repeat split; [done|done| |].
  - exact (steps_transitive _ _ _ R2 H4).
  - exact (steps_transitive _ _ _ R2 H3).
Qed.

(** After the responses of Alice and Bob. *)
Lemma participantCount_counts_respondents_witness :
  reachable (fhe := clear_FHE) st_moved /\
  participantCount (survey_at st_moved S1) = 2 /\
  size (respondents st_moved S1) = 2%nat.
Proof.
  destruct scenario_states_reachable as (_ & _ & Hr & _).
  split; [exact Hr|].
  destruct (participantCount_counts_respondents (fhe := clear_FHE) st_moved S1 Hr)
    as [Hn _].
  split; [rewrite Hn|]; vm_compute; reflexivity.
Defined.

Lemma participantCount_counts_events_witness :
  reachable (fhe := clear_FHE) st_moved /\
  participantCount (survey_at st_moved S1) = 2 /\
  respondents_in S1 (logs st_moved) = [1001; 1002].
Proof.
  destruct scenario_states_reachable as (_ & _ & Hr & _).
  split; [exact Hr|].
  destruct (participantCount_counts_events (fhe := clear_FHE) st_moved S1 Hr)
    as [Hn _].
  split; [rewrite Hn|]; vm_compute; reflexivity.
Defined.

(** ** The list of identifiers and the log *)

Section Listing.
Context {fhe : FHEAdapter}.

Lemma logs_created env id t q st :
  logs (created env id t q st) = logs st ++ [SurveyCreated id (msg_sender env)].
Proof. reflexivity. Qed.

Lemma logs_submitted env id v st :
  logs (submitted env id v st) = logs st ++ [ResponseSubmitted id (msg_sender env)].
Proof. reflexivity. Qed.

Lemma logs_aggregated id st :
  logs (aggregated id st) =
  logs st ++ [ResultsAggregated id (FHE_decrypt (encryptedResponse (survey_at st id)))
                                (to_uint32 (participantCount (survey_at st id)))].
Proof. reflexivity. Qed.

Lemma logs_verified id st : logs (verified id st) = logs st ++ [ResultsVerified id].
Proof. reflexivity. Qed.

(** X8. [getAllSurveyIds] does not write and returns, in a reachable
    state, the identifiers of the [SurveyCreated] events in the order they
    were emitted: one entry per accepted [createSurvey]. *)
Theorem getAllSurveyIds_lists_creations st :
  reachable st ->
  getAllSurveyIds st = Done (created_in (logs st)) st.
Proof.
  intros Hr. unfold getAllSurveyIds, sload. f_equal.
  refine (reachable_ind_inv (fun s => surveyIds s = created_in (logs s)) _ _ st Hr).
  - reflexivity.
  - intros s s' _ Ht Inv.
    destruct Ht as [env id0 t q s|env id0 ext prf v s|id0 s|id0 clear prf s];
      unfold created, submitted, aggregated, verified, add_log;
      cbn [logs surveyIds push_surveyId set_survey set_result set_responded];
      rewrite created_in_app, Inv; cbn; by rewrite ?app_nil_r.
Qed.

(** X9. Every survey that exists is listed; the list only grows at its
    end; and the identifier of a survey that exists is never listed
    again. *)
Theorem surveyIds_grow st st' id :
  steps st st' ->
  surveyIds st `prefix_of` surveyIds st' /\
  (survey_exists st id = true ->
   count_occ string_dec (surveyIds st') id = count_occ string_dec (surveyIds st) id) /\
  (reachable st -> survey_exists st id = true -> In id (surveyIds st)).
Proof.
  intros Hs. split; [|split].
  - refine (steps_preserve (fun s => surveyIds st `prefix_of` surveyIds s) _ _ _ Hs _);
      [|done].
    intros s s' Ht Hp.
    destruct Ht as [env id0 t q s|env id0 ext prf v s|id0 s|id0 clear prf s];
      rewrite ?surveyIds_created, ?surveyIds_submitted, ?surveyIds_aggregated,
        ?surveyIds_verified; [|done..].
    by apply prefix_app_r.
  - intros Hex.
    assert (H : survey_exists st' id = true /\
                count_occ string_dec (surveyIds st') id
                  = count_occ string_dec (surveyIds st) id); [|by destruct H].
    refine (steps_preserve
              (fun s => survey_exists s id = true /\
                        count_occ string_dec (surveyIds s) id
                          = count_occ string_dec (surveyIds st) id) _ _ _ Hs _); [|done].
    intros s s' Ht [He Hc]. split; [by apply (transition_exists s s' id Ht)|].
    destruct Ht as [env id0 t q s Hn|env id0 ext prf v s|id0 s|id0 clear prf s];
      rewrite ?surveyIds_created, ?surveyIds_submitted, ?surveyIds_aggregated,
        ?surveyIds_verified; [|done..].
    rewrite count_occ_app, Hc. cbn [count_occ].
    destruct (string_dec id0 id) as [->|]; [congruence|lia].
  - intros Hr Hex. destruct (in_dec string_dec id (surveyIds st)) as [|Hni]; [done|].
    destruct (untouched_reads st id 0 (reachable_unlisted st id Hr Hni)). congruence.
Qed.

(** X10. A call that returns appends exactly one event to the log, and a
    call that fails leaves the log as it is. *)
Theorem one_event_per_call env c st :
  match transact (body env c) st with
  | (st', inr _) => exists e, logs st' = logs st ++ [e]
  | (st', inl _) => logs st' = logs st
  end.
Proof.
  unfold transact. destruct (body env c st) as [[] st'|e st'] eqn:H; [|done].
  apply body_done in H.
  destruct c as [id t q|id ext prf|id|id clear prf].
  - destruct H as [_ ->]. by eexists.
  - destruct H as (v & _ & _ & _ & ->). by eexists.
  - destruct H as [_ ->]. by eexists.
  - destruct H as [_ ->]. by eexists.
Qed.

(** X11. In a reachable state a survey has one [ResultsVerified] event
    when its result is verified and none otherwise: it is verified at most
    once. *)
Theorem verified_once_in_log st id :
  reachable st ->
  verified_in id (logs st) = if isVerified (result_at st id) then 1%nat else 0%nat.
Proof.
  intros Hr. revert id.
  refine (reachable_ind_inv
    (fun s => forall id, verified_in id (logs s)
                         = if isVerified (result_at s id) then 1%nat else 0%nat)
    _ _ st Hr).
  - intros id. by rewrite result_at_init.
  - intros s s' _ Ht Inv id. specialize (Inv id).
    destruct Ht as [env id0 t q s|env id0 ext prf v s|id0 s ? ? ? Hnv|id0 clear prf s ? Hnv].
    + rewrite logs_created, verified_in_app, result_at_created. cbn. lia.
    + rewrite logs_submitted, verified_in_app, result_at_submitted. cbn. lia.
    + rewrite logs_aggregated, verified_in_app, result_at_aggregated.
      cbn [verified_in]. case_decide; [subst id0|lia].
      rewrite Hnv in Inv. cbn [isVerified]. lia.
    + rewrite logs_verified, verified_in_app, result_at_verified.
      cbn [verified_in]. repeat case_decide; try congruence; [subst id0|lia].
      rewrite Hnv in Inv. cbn [isVerified with_isVerified]. lia.
Qed.

End Listing.

(** The scenario after Bob's response: two creations would be two
    entries; here there is one. *)
Lemma getAllSurveyIds_lists_creations_witness :
  reachable (fhe := clear_FHE) st_moved /\
  getAllSurveyIds st_moved = Done [S1] st_moved.
Proof.
  destruct scenario_states_reachable as (_ & _ & Hr & _).
  split; [exact Hr|].
  rewrite (getAllSurveyIds_lists_creations (fhe := clear_FHE) st_moved Hr).
  vm_compute. reflexivity.
Defined.

Lemma surveyIds_grow_witness :
  (steps (fhe := clear_FHE) st_open st_closed /\ survey_exists st_open S1 = true /\
   reachable (fhe := clear_FHE) st_open) /\
  surveyIds st_open `prefix_of` surveyIds st_closed /\
  count_occ string_dec (surveyIds st_closed) S1 = 1%nat /\
  In S1 (surveyIds st_open).
Proof.
  destruct scenario_reachable as (_ & _ & H2 & H3 & _).
  destruct scenario_states_reachable as (Hr & _).
  assert (Hs : steps (fhe := clear_FHE) st_open st_closed)
    by exact (steps_transitive _ _ _ H2 H3).
  assert (E : survey_exists st_open S1 = true) by (vm_compute; reflexivity).
  destruct (surveyIds_grow (fhe := clear_FHE) st_open st_closed S1 Hs) as (Hp & Hc & Hin).
  split; [tauto|]. split; [exact Hp|]. split; [|exact (Hin Hr E)].
  rewrite (Hc E). vm_compute. reflexivity.
Defined.

Lemma verified_once_in_log_witness :
  reachable (fhe := clear_FHE) st_closed /\
  verified_in S1 (logs st_closed) = 1%nat /\
  isVerified (result_at st_closed S1) = true.
Proof.
  destruct scenario_states_reachable as (_ & _ & _ & Hr).
  split; [exact Hr|].
  assert (Hv : isVerified (result_at st_closed S1) = true) by (vm_compute; reflexivity).
  split; [|exact Hv].
  by rewrite (verified_once_in_log (fhe := clear_FHE) st_closed S1 Hr), Hv.
Defined.

(** ** The record of a survey *)

Section Records.
Context {fhe : FHEAdapter}.

(** X12. Once the result of a survey is verified, its record and its
    result stay as they are: accumulator, participant count, sum and
    count are those of the moment of verification. *)
Theorem verified_record_is_frozen st st' id :
  reachable st ->
  isVerified (result_at st id) = true ->
  steps st st' ->
  survey_at st' id = survey_at st id /\ result_at st' id = result_at st id.
Proof.
  intros Hr Hv Hs.
  pose proof (reachable_verified_closed st id Hr Hv) as Hc.
  assert (H : closed st' id /\ survey_at st' id = survey_at st id /\
              result_at st' id = result_at st id); [|tauto].
  refine (steps_preserve
            (fun s => closed s id /\ survey_at s id = survey_at st id /\
                      result_at s id = result_at st id) _ _ _ Hs _); [|done].
  intros s s' Ht (Hcs & H1 & H2).
  destruct (transition_closed s s' id Ht Hcs) as (Hc' & H3 & H4).
  split; [done|]. split; congruence.
Qed.

(** X13. The recorded count never exceeds the participant count: in a
    reachable state the count of a survey's result is at most the number of
    its participants. *)
Theorem recorded_count_bounded st id :
  reachable st ->
  count (result_at st id) <= participantCount (survey_at st id).
Proof.
  intros Hr.
  assert (H : count (result_at st id) <= participantCount (survey_at st id) /\
              (survey_exists st id = false -> count (result_at st id) = 0));
    [|by destruct H].
  revert id.
  refine (reachable_ind_inv
    (fun s => forall id,
       count (result_at s id) <= participantCount (survey_at s id) /\
       (survey_exists s id = false -> count (result_at s id) = 0)) _ _ st Hr).
  - intros id. by rewrite result_at_init.
  - intros s s' _ Ht Inv id. destruct (Inv id) as [Hle Hz].
    destruct Ht as [env id0 t q s Hn|env id0 ext prf v s Hex|id0 s Hex|id0 clear prf s Hex].
    + rewrite result_at_created, survey_at_created.
      case_decide; [subst id0|].
      * rewrite (Hz Hn). split; [cbn; lia|done].
      * split; [done|]. intros He. apply Hz. rewrite <- He.
        symmetry. apply survey_exists_by_title. rewrite survey_at_created.
        by case_decide.
    + rewrite result_at_submitted, survey_at_submitted.
      assert (He : survey_exists (submitted env id0 v s) id = survey_exists s id).
      { apply survey_exists_by_title. rewrite survey_at_submitted.
        case_decide; by subst. }
      rewrite He. split; [|done].
      case_decide; [subst id0|done].
      cbn [participantCount with_participantCount]. lia.
    + rewrite result_at_aggregated, survey_at_aggregated.
      assert (He : survey_exists (aggregated id0 s) id = survey_exists s id)
        by (by apply survey_exists_by_title).
      rewrite He. case_decide; [subst id0|done].
      cbn [count]. split; [|congruence].
      unfold to_uint32. apply N.Div0.mod_le.
    + rewrite result_at_verified, survey_at_verified.
      assert (He : survey_exists (verified id0 s) id = survey_exists s id).
      { apply survey_exists_by_title. rewrite survey_at_verified.
        case_decide; by subst. }
      rewrite He. repeat case_decide; try congruence; subst; done.
Qed.

(** X14. Aggregating twice in a row is aggregating once: the second call
    returns as well and stores the result that is already there. *)
Theorem aggregateResults_again env env' id st st1 :
  aggregateResults env id st = Done tt st1 ->
  aggregateResults env' id st1 = Done tt (aggregated id st1) /\
  result_at (aggregated id st1) id = result_at st1 id /\
  survey_at (aggregated id st1) id = survey_at st id.
Proof.
  rewrite !aggregateResults_eq. intros H.
  destruct (survey_exists st id) eqn:Hex; cbn [negb] in H; [|done].
  destruct (isActive (survey_at st id)) eqn:Hact; cbn [negb] in H; [|done].
  destruct (0 <? participantCount (survey_at st id)) eqn:Hpc; cbn [negb] in H; [|done].
  destruct (isVerified (result_at st id)); inversion H; subst st1.
  rewrite (survey_exists_by_title st (aggregated id st) id id) by done.
  rewrite !survey_at_aggregated, Hex, Hact, Hpc. cbn [negb].
  rewrite !result_at_aggregated. case_decide; [|done].
  rewrite !survey_at_aggregated. done.
Qed.

Section Accumulator.
(** The library hands out initialised handles: the zero handle is not
    initialised and a sum with an initialised ciphertext is. *)
Hypothesis zero_uninitialised : FHE_isInitialized 0 = false.
Hypothesis add_initialised :
  forall a b, FHE_isInitialized b = true -> FHE_isInitialized (FHE_add a b) = true.

(** X15. In a reachable state a survey without participants has the zero
    handle as accumulator, and a survey with participants an initialised
    one: the accumulator is there exactly when somebody responded. *)
Theorem accumulator_iff_participants st id :
  reachable st ->
  (participantCount (survey_at st id) = 0 -> encryptedResponse (survey_at st id) = 0) /\
  (FHE_isInitialized (encryptedResponse (survey_at st id)) = true <->
   participantCount (survey_at st id) <> 0).
Proof.
  intros Hr.
  assert (H : (participantCount (survey_at st id) = 0 ->
               encryptedResponse (survey_at st id) = 0) /\
              (participantCount (survey_at st id) <> 0 ->
               FHE_isInitialized (encryptedResponse (survey_at st id)) = true)).
  { revert id.
    refine (reachable_ind_inv
      (fun s => forall id,
         (participantCount (survey_at s id) = 0 ->
          encryptedResponse (survey_at s id) = 0) /\
         (participantCount (survey_at s id) <> 0 ->
          FHE_isInitialized (encryptedResponse (survey_at s id)) = true)) _ _ st Hr).
    - intros id. split; [done|]. by intros [].
    - intros s s' _ Ht Inv id. destruct (Inv id) as [Hz Hnz].
      destruct Ht as [env id0 t q s|env id0 ext prf v s ? ? ? ? Hi|id0 s|id0 clear prf s].
      + rewrite survey_at_created. case_decide; [|done]. split; [done|]. by intros [].
      + rewrite survey_at_submitted. case_decide; [subst id0|done].
        cbn [participantCount encryptedResponse with_participantCount
             with_encryptedResponse].
        split; [lia|]. intros _. unfold accumulator_after.
        destruct (participantCount (survey_at s id) =? 0); [done|by apply add_initialised].
      + by rewrite survey_at_aggregated.
      + rewrite survey_at_verified. case_decide; [subst id0|done]. done. }
  destruct H as [Hz Hnz]. split; [exact Hz|]. split; [|exact Hnz].
  intros Hi Hpc. rewrite (Hz Hpc) in Hi. congruence.
Qed.

End Accumulator.

End Records.

Lemma verified_record_is_frozen_witness :
  (reachable (fhe := clear_FHE) st_closed /\
   isVerified (result_at st_closed S1) = true /\
   steps (fhe := clear_FHE) st_closed
     (fst (transact (body (fhe := clear_FHE) bob (CreateSurvey "S2" "Lunch" 1)) st_closed))) /\
  result_at
    (fst (transact (body (fhe := clear_FHE) bob (CreateSurvey "S2" "Lunch" 1)) st_closed)) S1
    = mkAggregationResult 7 1 true.
Proof.
  destruct scenario_states_reachable as (_ & _ & _ & Hr).
  assert (Hv : isVerified (result_at st_closed S1) = true) by (vm_compute; reflexivity).
  assert (Hs : steps (fhe := clear_FHE) st_closed
     (fst (transact (body (fhe := clear_FHE) bob (CreateSurvey "S2" "Lunch" 1)) st_closed))).
  { apply steps_one. by apply (T_create (fhe := clear_FHE) bob "S2" "Lunch" 1 st_closed). }
  split; [tauto|].
  destruct (verified_record_is_frozen (fhe := clear_FHE) _ _ S1 Hr Hv Hs) as [_ ->].
  vm_compute. reflexivity.
Defined.

Lemma recorded_count_bounded_witness :
  reachable (fhe := clear_FHE) st_moved /\
  count (result_at st_moved S1) <= participantCount (survey_at st_moved S1) /\
  count (result_at st_moved S1) = 1 /\ participantCount (survey_at st_moved S1) = 2.
Proof.
  destruct scenario_states_reachable as (_ & _ & Hr & _).
  split; [exact Hr|].
  split; [exact (recorded_count_bounded (fhe := clear_FHE) st_moved S1 Hr)|].
  split; vm_compute; reflexivity.
Defined.

Lemma aggregateResults_again_witness :
  aggregateResults (fhe := clear_FHE) alice S1 st_open = Done tt st_pending /\
  aggregateResults (fhe := clear_FHE) bob S1 st_pending
    = Done tt (aggregated (fhe := clear_FHE) S1 st_pending) /\
  result_at (aggregated (fhe := clear_FHE) S1 st_pending) S1 = result_at st_pending S1.
Proof.
  assert (E : aggregateResults (fhe := clear_FHE) alice S1 st_open = Done tt st_pending)
    by (vm_compute; reflexivity).
  split; [exact E|].
  destruct (aggregateResults_again (fhe := clear_FHE) alice bob S1 st_open st_pending E)
    as (H1 & H2 & _).
  split; [exact H1|exact H2].
Defined.

(** The transparent adapter hands out initialised handles. *)
Lemma clear_FHE_initialised :
  FHE_isInitialized (FHEAdapter := clear_FHE) 0 = false /\
  forall a b, FHE_isInitialized (FHEAdapter := clear_FHE) b = true ->
              FHE_isInitialized (FHEAdapter := clear_FHE)
                (FHE_add (FHEAdapter := clear_FHE) a b) = true.
Proof.
  split; [reflexivity|]. intros a b. cbn.
  destruct (N.eqb_spec b 0); [done|]. intros _.
  destruct (N.eqb_spec (a + b) 0); [lia|done].
Defined.

Lemma accumulator_iff_participants_witness :
  reachable (fhe := clear_FHE) st_created /\
  reachable (fhe := clear_FHE) st_moved /\
  encryptedResponse (survey_at st_created S1) = 0 /\
  FHE_isInitialized (FHEAdapter := clear_FHE)
    (encryptedResponse (survey_at st_moved S1)) = true.
Proof.
  destruct scenario_reachable as (Hr0 & _).
  destruct scenario_states_reachable as (_ & _ & Hr & _).
  destruct clear_FHE_initialised as [Hz Ha].
  split; [exact Hr0|]. split; [exact Hr|]. split.
  - apply (accumulator_iff_participants (fhe := clear_FHE) Hz Ha st_created S1 Hr0).
    vm_compute. reflexivity.
  - apply (accumulator_iff_participants (fhe := clear_FHE) Hz Ha st_moved S1 Hr).
    vm_compute. congruence.
Defined.

(** ** The order of two responses *)

Section Order.
Context {fhe : FHEAdapter}.
(** The library's sum does not depend on the order of the summands. *)
Hypothesis add_comm : forall a b, FHE_add a b = FHE_add b a.
Hypothesis add_assoc : forall a b c, FHE_add a (FHE_add b c) = FHE_add (FHE_add a b) c.

(** X16. Two accepted responses of different senders to one survey can be
    swapped: the other order is accepted too and leaves every survey
    record, result and participation flag the same. *)
Theorem responses_commute envA envB id extA prfA extB prfB st stA stAB :
  submitResponse envA id extA prfA st = Done tt stA ->
  submitResponse envB id extB prfB stA = Done tt stAB ->
  exists stB stBA,
    submitResponse envB id extB prfB st = Done tt stB /\
    submitResponse envA id extA prfA stB = Done tt stBA /\
    (forall id', survey_at stBA id' = survey_at stAB id') /\
    (forall id', result_at stBA id' = result_at stAB id') /\
    (forall id' who, responded_at stBA id' who = responded_at stAB id' who).
Proof.
  intros HA HB.
  apply submitResponse_done in HA as (vA & HvA & HiA & Hex & Hact & HrA & ->).
  pose proof HB as HB'.
  apply submitResponse_done in HB as (vB & HvB & HiB & HexA & HactA & HrB & ->).
  rewrite responded_at_submitted in HrB. case_decide as Hd; [done|].
  assert (Hne : msg_sender envA <> msg_sender envB) by (intros E; apply Hd; by split).
  rewrite submitResponse_eq, HexA, HactA in HB'. cbn [negb] in HB'.
  rewrite responded_at_submitted in HB'. case_decide; [done|].
  rewrite HrB, HvB, HiB in HB'. cbn [negb] in HB'.
  rewrite survey_at_submitted in HB'. case_decide; [|done].
  cbn [participantCount with_participantCount] in HB'.
  destruct (N.leb_spec (participantCount (survey_at st id) + 1 + 1) max_uint256)
    as [Hle|]; [clear HB'|done].
  exists (submitted envB id vB st), (submitted envA id vA (submitted envB id vB st)).
  repeat apply conj.
  - rewrite submitResponse_eq, Hex, Hact, HrB, HvB, HiB. cbn [negb].
    by destruct (N.leb_spec (participantCount (survey_at st id) + 1) max_uint256); [|lia].
  - rewrite submitResponse_eq.
    rewrite (survey_exists_by_title st _ id id)
      by (rewrite survey_at_submitted; by case_decide).
    rewrite Hex, survey_at_submitted. case_decide; [|done].
    cbn [isActive with_participantCount with_encryptedResponse participantCount].
    rewrite Hact, responded_at_submitted. case_decide as Hd'; [by destruct Hd'|].
    rewrite HrA, HvA, HiA. cbn [negb].
    by destruct (N.leb_spec (participantCount (survey_at st id) + 1 + 1) max_uint256);
      [|lia].
  - intros id'. rewrite !survey_at_submitted. case_decide; [subst id'|done].
    case_decide; [|done].
    unfold with_participantCount, with_encryptedResponse, accumulator_after.
    cbn [title encryptedResponse participantCount questionCount creator createdAt isActive].
    assert (E1 : (participantCount (survey_at st id) + 1 =? 0) = false)
      by (apply N.eqb_neq; lia).
    rewrite E1. f_equal.
    destruct (participantCount (survey_at st id) =? 0); [apply add_comm|].
    rewrite <- !add_assoc. f_equal. apply add_comm.
  - intros id'. by rewrite !result_at_submitted.
  - intros id' who. rewrite !responded_at_submitted.
    repeat case_decide; done.
Qed.

End Order.

(** ** The front end *)

Module FrontendFacts.
Import Frontend.

(** X17. [addToHistory] puts the new line first and keeps the nine most
    recent older lines in their order: the history never has more than ten
    lines. *)
Theorem addToHistory_keeps_ten time action prev :
  length (addToHistory time action prev) = S (Nat.min 9 (length prev)) /\
  (length (addToHistory time action prev) <= 10)%nat /\
  addToHistory time action prev !! 0%nat = Some (time ++ [58; 32] ++ action) /\
  (forall k, (k < 9)%nat -> addToHistory time action prev !! S k = prev !! k) /\
  (forall k, (9 <= k)%nat -> addToHistory time action prev !! S k = None).
Proof.
  unfold addToHistory. cbn [length]. rewrite length_firstn.
  repeat split.
  - lia.
  - intros k Hk. cbn. by apply lookup_take_lt.
  - intros k Hk. cbn. apply lookup_ge_None. rewrite length_firstn. lia.
Qed.

(** X18. The creator is displayed as the first 8 code units, three dots
    and whatever follows the first 36: an address of 42 code units becomes
    17, ending in its last 6; a string of at most 36 is cut to its first 8
    and the dots. *)
Theorem shortCreator_shape creator :
  length (shortCreator creator)
    = (Nat.min 8 (length creator) + 3 + (length creator - 36))%nat /\
  (length creator = 42%nat ->
   length (shortCreator creator) = 17%nat /\
   shortCreator creator
     = firstn 8 creator ++ [46; 46; 46] ++ rev (firstn 6 (rev creator))) /\
  ((length creator <= 36)%nat ->
   shortCreator creator = firstn 8 creator ++ [46; 46; 46]).
Proof.
  unfold shortCreator. repeat split.
  - rewrite !length_app, length_firstn, length_skipn. cbn [length]. lia.
  - rewrite !length_app, length_firstn, length_skipn. cbn [length]. lia.
  - do 2 f_equal.
    rewrite <- (rev_involutive creator) at 1.
    rewrite skipn_rev, length_rev, H. cbn [Nat.sub]. reflexivity.
  - intros Hle. rewrite skipn_all2 by lia. reflexivity.
Qed.

End FrontendFacts.

(** Alice's 7 and Bob's 5, in both orders. *)
Lemma responses_commute_witness :
  (submitResponse (fhe := clear_FHE) alice S1 7 some_proof st_created = Done tt st_open /\
   submitResponse (fhe := clear_FHE) bob S1 5 some_proof st_open
     = Done tt (submitted (fhe := clear_FHE) bob S1 5 st_open)) /\
  exists stB stBA,
    submitResponse (fhe := clear_FHE) bob S1 5 some_proof st_created = Done tt stB /\
    submitResponse (fhe := clear_FHE) alice S1 7 some_proof stB = Done tt stBA /\
    encryptedResponse (survey_at stBA S1) = 12 /\
    participantCount (survey_at stBA S1) = 2.
Proof.
  assert (E1 : submitResponse (fhe := clear_FHE) alice S1 7 some_proof st_created
               = Done tt st_open) by (vm_compute; reflexivity).
  assert (E2 : submitResponse (fhe := clear_FHE) bob S1 5 some_proof st_open
               = Done tt (submitted (fhe := clear_FHE) bob S1 5 st_open))
    by (vm_compute; reflexivity).
  split; [split; assumption|].
  destruct (responses_commute (fhe := clear_FHE) N.add_comm N.add_assoc
              alice bob S1 7 some_proof 5 some_proof st_created st_open _ E1 E2)
    as (stB & stBA & H1 & H2 & Hs & _).
  exists stB, stBA. split; [exact H1|]. split; [exact H2|].
  rewrite (Hs S1). split; vm_compute; reflexivity.
Defined.

(** A history of eleven lines gets a twelfth: ten remain. *)
Lemma addToHistory_keeps_ten_witness :
  (3 < 9)%nat /\
  length (Frontend.addToHistory [49] [50] (repeat [51] 11)) = 10%nat /\
  Frontend.addToHistory [49] [50] (repeat [51] 11) !! 4%nat = Some [51].
Proof.
  assert (Hk : (3 < 9)%nat) by lia.
  destruct (FrontendFacts.addToHistory_keeps_ten [49] [50] (repeat [51] 11))
    as (Hlen & _ & _ & Hold & _).
  split; [exact Hk|]. split; [exact Hlen|exact (Hold 3%nat Hk)].
Defined.

(** An address of 42 code units. *)
Lemma shortCreator_shape_witness :
  length (repeat 48 42) = 42%nat /\
  length (Frontend.shortCreator (repeat 48 42)) = 17%nat.
Proof.
  assert (H : length (repeat (48 : N) 42) = 42%nat) by reflexivity.
  split; [exact H|].
  apply (FrontendFacts.shortCreator_shape (repeat 48 42)). exact H.
Defined.

(** ** Active and verified *)

Section Activity.
Context {fhe : FHEAdapter}.

(** X19. In a reachable state a survey that exists is inactive exactly
    when its result is verified: nothing but an accepted [verifyResults]
    deactivates a survey, and nothing reactivates it. *)
Theorem active_iff_unverified st id :
  reachable st ->
  survey_exists st id = true ->
  isActive (survey_at st id) = negb (isVerified (result_at st id)).
Proof.
  intros Hr. revert id.
  refine (reachable_ind_inv
    (fun s => forall id, survey_exists s id = true ->
                         isActive (survey_at s id) = negb (isVerified (result_at s id)))
    _ _ st Hr).
  - intros id. by rewrite survey_exists_init.
  - intros s s' Hrs Ht Inv id.
    destruct Ht as [env id0 t q s Hn|env id0 ext prf v s Hex|id0 s Hex Hact ? Hnv
                    |id0 clear prf s Hex Hnv].
    + rewrite result_at_created, survey_at_created. case_decide; [subst id0|].
      * intros _. cbn [isActive].
        destruct (isVerified (result_at s id)) eqn:Hv; [|done].
        destruct (reachable_verified_closed s id Hrs Hv). congruence.
      * intros He. apply Inv. rewrite <- He. symmetry.
        apply survey_exists_by_title. rewrite survey_at_created. by case_decide.
    + rewrite result_at_submitted, survey_at_submitted. intros He.
      assert (He' : survey_exists s id = true).
      { rewrite <- He. symmetry. apply survey_exists_by_title.
        rewrite survey_at_submitted. case_decide; by subst. }
      case_decide; [subst id0|by apply Inv].
      cbn [isActive with_participantCount with_encryptedResponse]. by apply Inv.
    + rewrite result_at_aggregated, survey_at_aggregated. intros He.
      case_decide; [subst id0|by apply Inv]. by rewrite Hact.
    + rewrite result_at_verified, survey_at_verified. intros He.
      assert (He' : survey_exists s id = true).
      { rewrite <- He. symmetry. apply survey_exists_by_title.
        rewrite survey_at_verified. case_decide; by subst. }
      repeat case_decide; try congruence; [done|by apply Inv].
Qed.

End Activity.

Lemma active_iff_unverified_witness :
  (reachable (fhe := clear_FHE) st_moved /\ survey_exists st_moved S1 = true) /\
  (reachable (fhe := clear_FHE) st_closed /\ survey_exists st_closed S1 = true) /\
  isActive (survey_at st_moved S1) = true /\
  isActive (survey_at st_closed S1) = false.
Proof.
  destruct scenario_states_reachable as (_ & _ & Hr1 & Hr2).
  assert (E1 : survey_exists st_moved S1 = true) by (vm_compute; reflexivity).
  assert (E2 : survey_exists st_closed S1 = true) by (vm_compute; reflexivity).
  split; [tauto|]. split; [tauto|]. split.
  - rewrite (active_iff_unverified (fhe := clear_FHE) st_moved S1 Hr1 E1).
    vm_compute. reflexivity.
  - rewrite (active_iff_unverified (fhe := clear_FHE) st_closed S1 Hr2 E2).
    vm_compute. reflexivity.
Defined.
